(** * The convolutional sequence decoder of [seq2seq/decoders/conv_decoder.py]

    A shallow embedding of the decoder class [ConvDecoder]: every method is a
    function in a state-and-exception monad.  Python values live in one
    universal type because the program is dynamically typed; calls into the
    tensor framework and into the parts of the [seq2seq] package that are not
    part of this file go through a single parameter [ext] and are recorded,
    in order, in the state.

    The methods are embedded as their bodies read.  That the file as a whole
    is rejected by the parser is a fact about its text, kept apart in
    [Source]. *)

From Stdlib Require Import ZArith List String Ascii Bool Lia.
From stdpp Require Import base strings gmap.
Import ListNotations.
Local Open Scope string_scope.
Local Open Scope Z_scope.

Set Default Proof Using "Type".
Set Warnings "-register-all".

(** ** Python values *)

Inductive value : Type :=
| VNone
| VBool (b : bool)
| VInt (n : Z)
| VFloat (digits exp10 : Z)          (* the decimal literal digits * 10^exp10 *)
| VStr (s : string)
| VList (xs : list value)
| VTuple (xs : list value)
| VDict (items : list (string * value))
| VSlice (start stop : value)        (* start:stop, VNone for an omitted bound *)
| VLambda (source : string)          (* a lambda expression, by its text *)
| VObj (head : string) (parts : list value).
    (* an object owned by code outside this file: a tensor, a module
       attribute, a configuration object ... *)

Inductive exn : Type :=
| NameError (name : string)
| UnboundLocalError (name : string)
| AttributeError (attr : string)
| KeyError (key : string)
| IndexError
| TypeError (msg : string)
| ValueError (msg : string)
| SyntaxError (line : nat)
| LoopBudget
| Raised (what : string).            (* raised inside code outside this file *)

(** [UnboundLocalError] is a subclass of [NameError]. *)
Definition is_NameError (e : exn) : bool :=
  match e with
  | NameError _ | UnboundLocalError _ => true
  | _ => false
  end.

Definition is_TypeError (e : exn) : bool :=
  match e with
  | TypeError _ => true
  | _ => false
  end.

Inductive result (A : Type) : Type :=
| Ok (a : A)
| Err (e : exn).
Arguments Ok {A} a.
Arguments Err {A} e.

Definition returned {A} (r : result A) : bool :=
  match r with
  | Ok _ => true
  | Err _ => false
  end.

(** ** The monad: exceptions over a state that survives them *)

Record call : Type := Call {
  fn : string;
  args : list value;
  kwargs : list (string * value)
}.

Record state : Type := State {
  calls : list call;      (* calls that left this file, oldest first *)
  next_obj : nat          (* identity given to the next object built here *)
}.

Definition M (A : Type) : Type := state -> result A * state.

Definition ret {A} (a : A) : M A := fun s => (Ok a, s).

Definition raise {A} (e : exn) : M A := fun s => (Err e, s).

Definition bind {A B} (m : M A) (k : A -> M B) : M B :=
  fun s =>
    match m s with
    | (Ok a, s') => k a s'
    | (Err e, s') => (Err e, s')
    end.

Definition lift {A} (r : result A) : M A := fun s => (r, s).

Declare Scope py_scope.
Delimit Scope py_scope with py.
Notation "x <- m ;; k" := (bind m (fun x => k))
  (at level 100, m at next level, right associativity) : py_scope.
Notation "m ;;; k" := (bind m (fun _ => k))
  (at level 100, right associativity) : py_scope.
Local Open Scope py_scope.

Definition initial : state := State [] 0.

Definition outcome {A} (m : M A) (s : state) : result A := fst (m s).

Definition final {A} (m : M A) (s : state) : state := snd (m s).

(** The calls recorded during a run of [m] from [s]. *)
Definition emitted {A} (m : M A) (s : state) : list call :=
  drop (length (calls s)) (calls (final m s)).

(** ** Names *)

(** Names bound at module level by the import statements and the two class
    statements of the file. *)
Definition module_globals : list string :=
  [ "absolute_import"; "division"; "print_function"; "unicode_literals";
    "abc"; "namedtuple"; "locate"; "six"; "tf"; "nest"; "dtypes"; "math_ops";
    "GraphModule"; "Configurable"; "Decoder"; "dynamic_decode";
    "_transpose_batch_time"; "_create_position_embedding";
    "position_encoding"; "ConvEncoderUtils"; "beam_search";
    "ConvDecoderOutput"; "ConvDecoder" ].

(** The names of the interpreter's built-in namespace (functions, constants
    and the module attributes every module has). *)
Definition builtins : list string :=
  [ "abs"; "all"; "any"; "ascii"; "bin"; "bool"; "bytearray"; "bytes";
    "callable"; "chr"; "classmethod"; "compile"; "complex"; "delattr";
    "dict"; "dir"; "divmod"; "enumerate"; "eval"; "exec"; "filter"; "float";
    "format"; "frozenset"; "getattr"; "globals"; "hasattr"; "hash"; "help";
    "hex"; "id"; "input"; "int"; "isinstance"; "issubclass"; "iter"; "len";
    "list"; "locals"; "map"; "max"; "memoryview"; "min"; "next"; "object";
    "oct"; "open"; "ord"; "pow"; "print"; "property"; "range"; "repr";
    "reversed"; "round"; "set"; "setattr"; "slice"; "sorted";
    "staticmethod"; "str"; "sum"; "super"; "tuple"; "type"; "vars"; "zip";
    "__import__"; "True"; "False"; "None"; "Ellipsis"; "NotImplemented";
    "__name__"; "__doc__"; "__file__"; "__package__";
    "apply"; "basestring"; "buffer"; "cmp"; "coerce"; "execfile"; "file";
    "intern"; "long"; "raw_input"; "reduce"; "reload"; "unichr"; "unicode";
    "xrange" ].

Definition bound_global (name : string) : bool :=
  existsb (String.eqb name) module_globals
  || existsb (String.eqb name) builtins.

(** Reading a name that the function never assigns: module level, then
    built-ins, else [NameError]. *)
Definition read_global (name : string) : M value :=
  if bound_global name then ret (VObj name []) else raise (NameError name).

(** Reading a name that the function assigns somewhere: the local slot, which
    is empty until an assignment has run. *)
Definition read_local (name : string) (slot : option value) : M value :=
  match slot with
  | Some v => ret v
  | None => raise (UnboundLocalError name)
  end.

(** ** Built-in operations on values *)

Definition as_index (v : value) : option Z :=
  match v with
  | VInt i => Some i
  | VBool b => Some (if b then 1 else 0)
  | _ => None
  end.

(** [xs[i]] on a sequence, with Python's negative indices. *)
Definition index_seq {A} (xs : list A) (i : Z) : result A :=
  let n := Z.of_nat (length xs) in
  let j := if i <? 0 then i + n else i in
  if (0 <=? j) && (j <? n) then
    match nth_error xs (Z.to_nat j) with
    | Some v => Ok v
    | None => Err IndexError
    end
  else Err IndexError.

Definition slice_bound (n dflt : Z) (v : value) : result Z :=
  match v with
  | VNone => Ok dflt
  | _ =>
    match as_index v with
    | Some i => Ok (Z.max 0 (Z.min n (if i <? 0 then i + n else i)))
    | None => Err (TypeError "slice indices must be integers or None")
    end
  end.

(** [xs[start:stop]] on a sequence. *)
Definition slice_seq {A} (xs : list A) (start stop : value) : result (list A) :=
  let n := Z.of_nat (length xs) in
  match slice_bound n 0 start, slice_bound n n stop with
  | Ok a, Ok b => Ok (firstn (Z.to_nat (b - a)) (skipn (Z.to_nat a) xs))
  | Err e, _ => Err e
  | _, Err e => Err e
  end.

Definition map_result {A B} (f : A -> B) (r : result A) : result B :=
  match r with
  | Ok a => Ok (f a)
  | Err e => Err e
  end.

Fixpoint dict_get (items : list (string * value)) (key : string) : option value :=
  match items with
  | [] => None
  | (k, v) :: rest =>
    match dict_get rest key with
    | Some v' => Some v'     (* a later item for the same key wins *)
    | None => if String.eqb k key then Some v else None
    end
  end.

Definition chars (s : string) : list string :=
  map (fun c => String c EmptyString) (list_ascii_of_string s).

Definition unchars (cs : list string) : string :=
  fold_right String.append EmptyString cs.

(** ** Binding the arguments of a call to a [def] of this file *)

(** A parameter list after [self]: names in order, each with its default. *)
Definition signature : Type := list (string * option value).

Definition names_of {A} (l : list (string * A)) : list string := map fst l.

Definition mem (x : string) (l : list string) : bool :=
  existsb (String.eqb x) l.

Fixpoint kw_get (k : list (string * value)) (name : string) : option value :=
  match k with
  | [] => None
  | (n, v) :: rest => if String.eqb n name then Some v else kw_get rest name
  end.

Fixpoint bind_params (ps : signature) (a : list value)
    (k : list (string * value)) : result (list value) :=
  match ps with
  | [] =>
    match a with
    | [] => Ok []
    | _ :: _ => Err (TypeError "too many positional arguments")
    end
  | (p, dflt) :: ps' =>
    match a with
    | v :: a' =>
      if mem p (names_of k)
      then Err (TypeError "multiple values for argument")
      else map_result (cons v) (bind_params ps' a' k)
    | [] =>
      match kw_get k p, dflt with
      | Some v, _ | None, Some v => map_result (cons v) (bind_params ps' [] k)
      | None, None => Err (TypeError "missing required positional argument")
      end
    end
  end.

(** The values of the parameters, in order, or the [TypeError] of the call. *)
Definition bind_args (ps : signature) (a : list value)
    (k : list (string * value)) : result (list value) :=
  if forallb (fun n => mem n (names_of ps)) (names_of k)
  then bind_params ps a k
  else Err (TypeError "unexpected keyword argument").

Definition invoke {A} (ps : signature) (body : list value -> M A)
    (a : list value) (k : list (string * value)) : M A :=
  match bind_args ps a k with
  | Ok vs => body vs
  | Err e => raise e
  end.

Definition arity_error {A} : M A := raise (TypeError "arity").

(** ** The data of the class *)

(** [tf.contrib.learn.ModeKeys] *)
Module ModeKeys.
Definition TRAIN : string := "train".
Definition EVAL : string := "eval".
Definition INFER : string := "infer".
End ModeKeys.

(** [ConvDecoderOutput], a named tuple of two fields; [output_id] is the
    identity of the tuple object. *)
Record ConvDecoderOutput : Type := MkOutput {
  output_id : nat;
  logits : value;
  predicted_ids : value
}.

Definition new_ConvDecoderOutput (logits predicted_ids : value)
    : M ConvDecoderOutput :=
  fun s => (Ok (MkOutput (next_obj s) logits predicted_ids),
            State (calls s) (S (next_obj s))).

(** An instance: the attributes [__init__] assigns, and [params], [mode] and
    [name], which the base classes [Configurable] and [GraphModule] keep. *)
Record ConvDecoder : Type := MkDecoder {
  params : gmap string value;
  mode : string;
  name : string;
  vocab_size : value;
  attention_keys : value;
  attention_values : value;
  attention_values_length : value;
  attention_fn : value;
  reverse_scores_lengths : value;
  _combiner_fn : value
}.

(** The instance as an argument ([decoder=self]). *)
Definition self_value : value := VObj "self" [].

(** [self.attr] for an attribute that is not a method. *)
Definition self_attr (self : ConvDecoder) (attr : string) : M value :=
  if String.eqb attr "vocab_size" then ret (vocab_size self)
  else if String.eqb attr "attention_keys" then ret (attention_keys self)
  else if String.eqb attr "attention_values" then ret (attention_values self)
  else if String.eqb attr "attention_values_length"
       then ret (attention_values_length self)
  else if String.eqb attr "attention_fn" then ret (attention_fn self)
  else if String.eqb attr "reverse_scores_lengths"
       then ret (reverse_scores_lengths self)
  else if String.eqb attr "_combiner_fn" then ret (_combiner_fn self)
  else if String.eqb attr "mode" then ret (VStr (mode self))
  else if String.eqb attr "name" then ret (VStr (name self))
  else raise (AttributeError attr).

(** [self.params[key]] *)
Definition param (self : ConvDecoder) (key : string) : M value :=
  match params self !! key with
  | Some v => ret v
  | None => raise (KeyError key)
  end.

(** [ConvDecoder.default_params()] *)
Definition default_params : gmap string value :=
  list_to_map
    [ ("cnn.layers", VInt 3);
      ("cnn.nhids", VStr "512,512,512");
      ("cnn.kwidths", VStr "3,3,3");
      ("cnn.nhid_default", VInt 256);
      ("cnn.kwidth_default", VInt 3);
      ("embedding_dropout_keep_prob", VFloat 8 (-1));
      ("nhid_dropout_keep_prob", VFloat 8 (-1));
      ("out_dropout_keep_prob", VFloat 8 (-1));
      ("word_embeddings.size", VInt 512);
      ("position_embeddings.enable", VBool true);
      ("position_embeddings.combiner_fn", VStr "tensorflow.add");
      ("position_embeddings.num_positions", VInt 100);
      ("init_scale", VFloat 4 (-2));
      ("nout_embed", VInt 256) ].

(** ** The text of the statement headers *)

(** The [def] headers of the class and the header of the loop of
    [conv_decoder_infer], as the file has them, by line number.  The
    constructor's header (lines 73 to 82) is left out. *)
Module Source.
Local Open Scope nat_scope.

Definition headers : list (nat * string) :=
  [ (96, "  def default_params():");
    (114, "  def compute_output(self, cell_output):");
    (146, "  def conv_decoder_train(self, decoder, enc_output, labels, sequence_length):");
    (195, "  def infer_conv_block(self, enc_output, input_embed):");
    (227, "  def create_init_state(self, config, target_embedding, start_tokens)");
    (244, "  def next_inputs(self, time, outputs, state, sample_ids, name=None):");
    (256, "  def step(self, time_, inputs, beam_state, name=None):");
    (271, "  def conv_decoder_infer(self, decoder, enc_output, target_embedding, start_tokens, config):");
    (278, "    WHILE:");
    (304, "  def _build(self, enc_output, labels=None, sequence_length=None, target_embedding=None, start_tokens=None, config=None):") ].

Definition text (line : nat) : string :=
  match find (fun h => Nat.eqb (fst h) line) headers with
  | Some h => snd h
  | None => ""
  end.

Definition is_space (c : ascii) : bool := Ascii.eqb c " ".

Definition is_word_char (c : ascii) : bool :=
  let n := nat_of_ascii c in
  (Nat.leb 97 n && Nat.leb n 122) || (Nat.leb 65 n && Nat.leb n 90)
  || (Nat.leb 48 n && Nat.leb n 57) || Nat.eqb n 95.

Fixpoint ltrim (cs : list ascii) : list ascii :=
  match cs with
  | c :: rest => if is_space c then ltrim rest else cs
  | [] => []
  end.

Definition trim (cs : list ascii) : list ascii :=
  rev (ltrim (rev (ltrim cs))).

Fixpoint take_word (cs : list ascii) : list ascii :=
  match cs with
  | c :: rest => if is_word_char c then c :: take_word rest else []
  | [] => []
  end.

(** The first word of a line, after its indentation. *)
Definition first_word (line : string) : string :=
  string_of_list_ascii (take_word (ltrim (list_ascii_of_string line))).

(** What follows the first occurrence of [c]. *)
Fixpoint after (c : ascii) (cs : list ascii) : option (list ascii) :=
  match cs with
  | [] => None
  | x :: rest => if Ascii.eqb x c then Some rest else after c rest
  end.

Fixpoint before (c : ascii) (cs : list ascii) : list ascii :=
  match cs with
  | [] => []
  | x :: rest => if Ascii.eqb x c then [] else x :: before c rest
  end.

Fixpoint split_commas (n : nat) (cs : list ascii) : list (list ascii) :=
  match n with
  | O => [cs]
  | S n' =>
    match after "," cs with
    | Some rest => before "," cs :: split_commas n' rest
    | None => [cs]
    end
  end.

(** One parameter: its name, and whether it has a default. *)
Definition parameter (cs : list ascii) : string * bool :=
  (string_of_list_ascii (trim (before "=" cs)),
   match after "=" cs with Some _ => true | None => false end).

(** A [def] header: the name, the parameters, and what follows the closing
    parenthesis. *)
Definition parse_def (line : string)
    : option (string * list (string * bool) * string) :=
  let cs := ltrim (list_ascii_of_string line) in
  if String.eqb (string_of_list_ascii (take_word cs)) "def" then
    let cs := ltrim (skipn 3 cs) in
    match after "(" cs with
    | None => None
    | Some inside =>
      match after ")" inside with
      | None => None
      | Some tail =>
        let ps := before ")" inside in
        Some (string_of_list_ascii (take_word cs),
              match trim ps with
              | [] => []
              | _ => map parameter (split_commas (length ps) ps)
              end,
              string_of_list_ascii (trim tail))
      end
    end
  else None.

Definition ends_with_colon (line : string) : bool :=
  match rev (trim (list_ascii_of_string line)) with
  | c :: _ => Ascii.eqb c ":"
  | [] => false
  end.

Definition has_colon (line : string) : bool :=
  existsb (Ascii.eqb ":") (list_ascii_of_string line).

(** The keywords that open a compound statement.  Keywords are lower case. *)
Definition compound_keywords : list string :=
  [ "def"; "class"; "if"; "elif"; "else"; "while"; "for"; "try"; "except";
    "finally"; "with"; "async" ].

(** What the grammar asks of one logical line, as far as the colon goes: the
    parameter list of a [def] is followed by a colon (or by an arrow); any
    other compound header has a colon; a line that does not start with such a
    keyword is a simple statement, and no simple statement ends in a colon. *)
Definition line_ok (line : string) : bool :=
  let w := first_word line in
  if String.eqb w "def" then
    match parse_def line with
    | Some (_, _, tail) =>
      String.prefix ":" tail || String.prefix "->" tail
    | None => false
    end
  else if existsb (String.eqb w) compound_keywords then has_colon line
  else negb (ends_with_colon line).

Fixpoint first_error (hs : list (nat * string)) : option nat :=
  match hs with
  | [] => None
  | (n, line) :: rest => if line_ok line then first_error rest else Some n
  end.

(** Importing the module: the parser stops at the first line it rejects. *)
Definition load : result unit :=
  match first_error headers with
  | Some n => Err (SyntaxError n)
  | None => Ok tt
  end.

(** The parameters after [self] that the header on [line] declares. *)
Definition declared (line : nat) : list (string * bool) :=
  match parse_def (text line) with
  | Some (_, _ :: ps, _) => ps
  | _ => []
  end.

End Source.

(** ** Calls that leave the file *)

Section Decoder.

(** What a call into the tensor framework, the standard library or another
    module of the package returns: by dotted name, positional arguments and
    keyword arguments.  An operation on an object owned by that code (a method
    call, an attribute read, an index, a call, an operator) reaches it under
    the operation's name with the object as first argument. *)
Context (ext : string -> list value -> list (string * value) -> result value).

Definition foreign (f : string) (a : list value)
    (k : list (string * value)) : M value :=
  fun s => (ext f a k, State (calls s ++ [Call f a k]) (next_obj s)).

(** [recv.name(a, k)].  None of the method names the file uses ([get_shape],
    [as_list], [set_shape], [write], [stack]) exists on a built-in type. *)
Definition method (recv : value) (name : string) (a : list value)
    (k : list (string * value)) : M value :=
  match recv with
  | VObj _ _ => foreign ("." ++ name) (recv :: a) k
  | _ => raise (AttributeError name)
  end.

(** [recv.name], for the attribute names the file reads ([beam_size],
    [predicted_ids], [log_probs], [scores], [beam_parent_ids], [beam_width],
    [vocab_size]), none of which a built-in type has. *)
Definition getattr (recv : value) (name : string) : M value :=
  match recv with
  | VObj _ _ => foreign "getattr" [recv; VStr name] []
  | _ => raise (AttributeError name)
  end.

(** [recv[idx]] *)
Definition getitem (recv idx : value) : M value :=
  match recv with
  | VList xs =>
    match idx with
    | VSlice a b => lift (map_result VList (slice_seq xs a b))
    | _ =>
      match as_index idx with
      | Some i => lift (index_seq xs i)
      | None => raise (TypeError "list indices must be integers or slices")
      end
    end
  | VTuple xs =>
    match idx with
    | VSlice a b => lift (map_result VTuple (slice_seq xs a b))
    | _ =>
      match as_index idx with
      | Some i => lift (index_seq xs i)
      | None => raise (TypeError "tuple indices must be integers or slices")
      end
    end
  | VStr s =>
    match idx with
    | VSlice a b =>
      lift (map_result (fun cs => VStr (unchars cs)) (slice_seq (chars s) a b))
    | _ =>
      match as_index idx with
      | Some i => lift (map_result VStr (index_seq (chars s) i))
      | None => raise (TypeError "string indices must be integers")
      end
    end
  | VDict items =>
    match idx with
    | VStr key =>
      match dict_get items key with
      | Some v => ret v
      | None => raise (KeyError key)
      end
    | VList _ | VDict _ => raise (TypeError "unhashable type")
    | _ => raise (KeyError "")
    end
  | VObj _ _ => foreign "__getitem__" [recv; idx] []
  | _ => raise (TypeError "object is not subscriptable")
  end.

(** [f(a, k)] for a value [f] *)
Definition call_value (f : value) (a : list value)
    (k : list (string * value)) : M value :=
  match f with
  | VObj _ _ | VLambda _ => foreign "__call__" (f :: a) k
  | _ => raise (TypeError "object is not callable")
  end.

(** The truth value an [if] takes of [v]. *)
Definition truth (v : value) : M bool :=
  match v with
  | VNone => ret false
  | VBool b => ret b
  | VInt n => ret (negb (n =? 0))
  | VFloat d _ => ret (negb (d =? 0))
  | VStr s => ret (negb (String.eqb s ""))
  | VList xs | VTuple xs => ret (match xs with [] => false | _ => true end)
  | VDict items => ret (match items with [] => false | _ => true end)
  | VSlice _ _ | VLambda _ => ret true
  | VObj _ _ =>
    b <- foreign "__bool__" [v] [] ;;
    match b with
    | VBool b => ret b
    | _ => raise (TypeError "__bool__ should return bool")
    end
  end.

(** [v > 0].  Numbers compare by sign; other built-in values do not order
    against an integer. *)
Definition gt_zero (v : value) : M bool :=
  match v with
  | VInt n => ret (0 <? n)
  | VBool b => ret b
  | VFloat d _ => ret (0 <? d)
  | VObj _ _ => r <- foreign "__gt__" [v; VInt 0] [] ;; truth r
  | _ => raise (TypeError "'>' not supported between these operands")
  end.

(** [a + b].  Float addition is left out: the operands here are tensors. *)
Definition add (a b : value) : M value :=
  match a, b with
  | VObj _ _, _ => foreign "__add__" [a; b] []
  | _, VObj _ _ => foreign "__radd__" [b; a] []
  | VStr x, VStr y => ret (VStr (x ++ y))
  | VList x, VList y => ret (VList (x ++ y))
  | VTuple x, VTuple y => ret (VTuple (x ++ y))
  | _, _ =>
    match as_index a, as_index b with
    | Some x, Some y => ret (VInt (x + y))
    | _, _ => raise (TypeError "unsupported operand types for +")
    end
  end.

(** [a, b = v] *)
Definition unpack2 (v : value) : M (value * value) :=
  items <- match v with
           | VList xs | VTuple xs => ret xs
           | VObj _ _ =>
             r <- foreign "__iter__" [v] [] ;;
             match r with
             | VList xs | VTuple xs => ret xs
             | _ => raise (TypeError "iter() returned a non-iterator")
             end
           | _ => raise (TypeError "cannot unpack a non-iterable object")
           end ;;
  match items with
  | [a; b] => ret (a, b)
  | _ => raise (ValueError "wrong number of values to unpack")
  end.


(** ** The methods of [ConvDecoder] *)

(** How many times the loop of [conv_decoder_infer] may start its body. *)
Context (budget : nat).

(** [with tf.variable_scope(name): body].  The scope binds no name, and
    leaving it lets an exception of the body pass. *)
Definition variable_scope {A} (scope : string) (body : M A) : M A :=
  _ <- foreign "tf.variable_scope" [VStr scope] [] ;;
  body.

(** [self.mode == key] *)
Definition mode_is (self : ConvDecoder) (key : string) : bool :=
  String.eqb (mode self) key.

(** The literal [{'src':0.8, 'hid':0.8}] *)
Definition stack_dropout : value :=
  VDict [("src", VFloat 8 (-1)); ("hid", VFloat 8 (-1))].

Definition __init__ (params : gmap string value) (mode : string)
    (vocab_size attention_keys attention_values attention_values_length
     attention_fn reverse_scores_lengths : value) (name : string)
    : M ConvDecoder :=
  _ <- foreign "GraphModule.__init__" [self_value; VStr name] [] ;;
  _ <- foreign "Configurable.__init__" [self_value; VDict (map_to_list params); VStr mode] [] ;;
  path <- match params !! "position_embeddings.combiner_fn" with
          | Some v => ret v
          | None => raise (KeyError "position_embeddings.combiner_fn")
          end ;;
  combiner <- foreign "locate" [path] [] ;;
  ret (MkDecoder params mode name vocab_size attention_keys attention_values
         attention_values_length attention_fn reverse_scores_lengths combiner).

Definition compute_output (self : ConvDecoder) (cell_output : value)
    : M (value * value * value * value) :=
  r <- call_value (attention_fn self) []
         [ ("query", cell_output);
           ("keys", attention_keys self);
           ("values", attention_values self);
           ("values_length", attention_values_length self) ] ;;
  p <- unpack2 r ;;
  let '(att_scores, attention_context) := p in
  mixed <- foreign "tf.concat" [VList [cell_output; attention_context]; VInt 1] [] ;;
  cell <- self_attr self "cell" ;;
  output_size <- getattr cell "output_size" ;;
  softmax_input <- foreign "tf.contrib.layers.fully_connected" []
         [ ("inputs", mixed);
           ("num_outputs", output_size);
           ("activation_fn", VObj "tf.nn.tanh" []);
           ("scope", VStr "attention_mix") ] ;;
  logits <- foreign "tf.contrib.layers.fully_connected" []
         [ ("inputs", softmax_input);
           ("num_outputs", vocab_size self);
           ("activation_fn", VNone);
           ("scope", VStr "logits") ] ;;
  ret (softmax_input, logits, att_scores, attention_context).

Definition conv_decoder_train_sig : signature :=
  [ ("decoder", None); ("enc_output", None); ("labels", None);
    ("sequence_length", None) ].

Definition conv_decoder_train (self : ConvDecoder)
    (decoder enc_output labels sequence_length : value)
    : M ConvDecoderOutput :=
  shape <- method labels "get_shape" [] [] ;;
  dims <- method shape "as_list" [] [] ;;
  embed_size <- getitem dims (VInt (-1)) ;;
  enable <- param self "position_embeddings.enable" ;;
  enabled <- truth enable ;;
  labels <-
    (if enabled then
       num_positions <- param self "position_embeddings.num_positions" ;;
       shape <- foreign "tf.shape" [labels] [] ;;
       maxlen <- getitem shape (VInt 1) ;;
       positions_embed <- foreign "_create_position_embedding" []
         [ ("embedding_dim", embed_size);
           ("num_positions", num_positions);
           ("lengths", sequence_length);
           ("maxlen", maxlen) ] ;;
       call_value (_combiner_fn self) [labels; positions_embed] []
     else ret labels) ;;
  (* Apply dropout to embeddings *)
  keep_prob <- param self "embedding_dropout_keep_prob" ;;
  inputs <- foreign "tf.contrib.layers.dropout" []
    [ ("inputs", labels);
      ("keep_prob", keep_prob);
      ("is_training", VBool (mode_is self ModeKeys.TRAIN)) ] ;;
  next_layer <- variable_scope "decoder_cnn" (
    let next_layer := inputs in
    layers <- param self "cnn.layers" ;;
    some <- gt_zero layers ;;
    if some then
      nhids <- param self "cnn.nhids" ;;
      layers <- param self "cnn.layers" ;;
      nhid_default <- param self "cnn.nhid_default" ;;
      nhids_list <- foreign "ConvEncoderUtils.parse_list_or_default"
                      [nhids; layers; nhid_default] [] ;;
      kwidths <- param self "cnn.kwidths" ;;
      layers <- param self "cnn.layers" ;;
      kwidth_default <- param self "cnn.kwidth_default" ;;
      kwidths_list <- foreign "ConvEncoderUtils.parse_list_or_default"
                        [kwidths; layers; kwidth_default] [] ;;
      (* mapping emb dim to hid dim *)
      nhid0 <- getitem nhids_list (VInt 0) ;;
      keep_prob <- param self "embedding_dropout_keep_prob" ;;
      next_layer <- foreign "ConvEncoderUtils.linear_mapping"
                      [next_layer; nhid0]
                      [ ("dropout", keep_prob);
                        ("var_scope_name", VStr "linear_mapping_before_cnn") ] ;;
      foreign "ConvEncoderUtils.conv_decoder_stack"
        [inputs; enc_output; next_layer; nhids_list; kwidths_list;
         stack_dropout]
        [ ("mode", VStr (mode self)) ]
    else ret next_layer) ;;
  next_layer <- variable_scope "softmax" (
    nout_embed <- param self "nout_embed" ;;
    next_layer <- foreign "ConvEncoderUtils.linear_mapping"
                    [next_layer; nout_embed]
                    [ ("var_scope_name", VStr "linear_mapping_after_cnn") ] ;;
    keep_prob <- param self "out_dropout_keep_prob" ;;
    next_layer <- foreign "tf.contrib.layers.dropout" []
      [ ("inputs", next_layer);
        ("keep_prob", keep_prob);
        ("is_training", VBool (mode_is self ModeKeys.TRAIN)) ] ;;
    keep_prob <- param self "out_dropout_keep_prob" ;;
    foreign "ConvEncoderUtils.linear_mapping"
      [next_layer; vocab_size self]
      [ ("dropout", keep_prob);
        ("var_scope_name", VStr "logits_before_softmax") ]) ;;
  logits <- foreign "_transpose_batch_time" [next_layer] [] ;;
  best <- foreign "tf.argmax" [logits] [ ("axis", VInt (-1)) ] ;;
  sample_ids <- foreign "tf.cast" [best; VObj "tf.int32" []] [] ;;
  new_ConvDecoderOutput logits sample_ids.

Definition infer_conv_block_sig : signature :=
  [ ("enc_output", None); ("input_embed", None) ].

Definition infer_conv_block (self : ConvDecoder)
    (enc_output input_embed : value) : M value :=
  (* Apply dropout to embeddings *)
  keep_prob <- param self "embedding_dropout_keep_prob" ;;
  input_embed <- foreign "tf.contrib.layers.dropout" []
    [ ("inputs", input_embed);
      ("keep_prob", keep_prob);
      ("is_training", VBool (mode_is self ModeKeys.INFER)) ] ;;
  next_layer <- variable_scope "decoder_cnn" (
    let next_layer := input_embed in
    layers <- param self "cnn.layers" ;;
    some <- gt_zero layers ;;
    if some then
      nhids <- param self "cnn.nhids" ;;
      layers <- param self "cnn.layers" ;;
      nhid_default <- param self "cnn.nhid_default" ;;
      nhids_list <- foreign "ConvEncoderUtils.parse_list_or_default"
                      [nhids; layers; nhid_default] [] ;;
      kwidths <- param self "cnn.kwidths" ;;
      layers <- param self "cnn.layers" ;;
      kwidth_default <- param self "cnn.kwidth_default" ;;
      kwidths_list <- foreign "ConvEncoderUtils.parse_list_or_default"
                        [kwidths; layers; kwidth_default] [] ;;
      (* mapping emb dim to hid dim *)
      nhid0 <- getitem nhids_list (VInt 0) ;;
      keep_prob <- param self "embedding_dropout_keep_prob" ;;
      next_layer <- foreign "ConvEncoderUtils.linear_mapping"
                      [next_layer; nhid0]
                      [ ("dropout", keep_prob);
                        ("var_scope_name", VStr "linear_mapping_before_cnn") ] ;;
      inputs <- read_global "inputs" ;;
      foreign "ConvEncoderUtils.conv_decoder_stack"
        [inputs; enc_output; next_layer; nhids_list; kwidths_list;
         stack_dropout]
        [ ("mode", VStr (mode self)) ]
    else ret next_layer) ;;
  next_layer <- variable_scope "softmax" (
    last <- getitem next_layer
              (VTuple [ VSlice VNone VNone; VSlice (VInt (-1)) VNone;
                        VSlice VNone VNone ]) ;;
    nout_embed <- param self "nout_embed" ;;
    next_layer <- foreign "ConvEncoderUtils.linear_mapping"
                    [last; nout_embed]
                    [ ("var_scope_name", VStr "linear_mapping_after_cnn") ] ;;
    keep_prob <- param self "out_dropout_keep_prob" ;;
    next_layer <- foreign "tf.contrib.layers.dropout" []
      [ ("inputs", next_layer);
        ("keep_prob", keep_prob);
        ("is_training", VBool (mode_is self ModeKeys.INFER)) ] ;;
    keep_prob <- param self "out_dropout_keep_prob" ;;
    foreign "ConvEncoderUtils.linear_mapping"
      [next_layer; vocab_size self]
      [ ("dropout", keep_prob);
        ("var_scope_name", VStr "logits_before_softmax") ]) ;;
  static <- method next_layer "get_shape" [] [] ;;
  shape <- method static "as_list" [] [] ;;
  dim0 <- getitem shape (VInt 0) ;;
  dim1 <- call_value shape [VInt (-1)] [] ;;
  foreign "tf.reshape" [next_layer; VList [dim0; dim1]] [].

Definition call_infer_conv_block (self : ConvDecoder) :=
  invoke infer_conv_block_sig
    (fun vs => match vs with
               | [enc_output; input_embed] =>
                 infer_conv_block self enc_output input_embed
               | _ => arity_error
               end).

Definition create_init_state_sig : signature :=
  [ ("config", None); ("target_embedding", None); ("start_tokens", None) ].

Definition create_init_state (self : ConvDecoder)
    (config target_embedding start_tokens : value) : M (value * value) :=
  beam_state <- foreign "beam_search.create_initial_beam_state" [config] [] ;;
  start_embedded <- foreign "tf.nn.embedding_lookup"
                      [target_embedding; start_tokens] [] ;;
  shape <- method start_embedded "get_shape" [] [] ;;
  dims <- method shape "as_list" [] [] ;;
  embed_size <- getitem dims (VInt (-1)) ;;
  enable <- param self "position_embeddings.enable" ;;
  enabled <- truth enable ;;
  positions_embed <-
    (if enabled then
       num_positions <- param self "position_embeddings.num_positions" ;;
       table <- foreign "position_encoding" [num_positions; embed_size] [] ;;
       constant <- foreign "tf.constant" [table]
                     [ ("name", VStr "position_encoding") ] ;;
       ret (Some constant)
     else ret None) ;;
  positions_embed <- read_local "positions_embed" positions_embed ;;
  start_pos_embed <- getitem positions_embed
                       (VTuple [ VSlice (VInt 0) (VInt 1);
                                 VSlice VNone VNone ]) ;;
  beam_size <- getattr config "beam_size" ;;
  start_pos_embed_batch <- foreign "tf.tile"
                             [start_pos_embed; VList [beam_size; VInt 1]] [] ;;
  total <- add start_embedded start_pos_embed ;;
  input_embed <- call_value (_combiner_fn self) [total] [] ;;
  ret (input_embed, beam_state).

Definition next_inputs_sig : signature :=
  [ ("time", None); ("outputs", None); ("state", None);
    ("sample_ids", None); ("name", Some VNone) ].

Definition next_inputs (self : ConvDecoder)
    (time outputs state sample_ids name : value) : M (value * value) :=
  end_token <- self_attr self "_end_token" ;;
  finished <- foreign "math_ops.equal" [sample_ids; end_token] [] ;;
  all_finished <- foreign "math_ops.reduce_all" [finished] [] ;;
  control_flow_ops <- read_global "control_flow_ops" ;;
  next_inputs <- method control_flow_ops "cond"
    [ all_finished;
      (* If we're finished, the next_inputs value doesn't matter *)
      VLambda "lambda: self._start_inputs";
      VLambda "lambda: self._embedding_fn(sample_ids)" ] [] ;;
  ret (finished, next_inputs).

Definition call_next_inputs (self : ConvDecoder) :=
  invoke next_inputs_sig
    (fun vs => match vs with
               | [time; outputs; state; sample_ids; name] =>
                 next_inputs self time outputs state sample_ids name
               | _ => arity_error
               end).

Definition step_sig : signature :=
  [ ("time_", None); ("inputs", None); ("beam_state", None);
    ("name", Some VNone) ].

(** Lines 266 to 269 of [step]: the next inputs, from the output of the
    beam search step. *)
Definition step_next_inputs (self : ConvDecoder) (bs_output beam_state : value)
    : M (value * value * value) :=
  ids <- getattr bs_output "predicted_ids" ;;
  q <- call_next_inputs self [] [ ("sample_ids", ids) ] ;;
  let '(finished, next_inputs) := q in
  _ <- match next_inputs with
       | VObj _ _ => ret tt
       | _ => raise (AttributeError "set_shape")
       end ;;
  batch_size <- self_attr self "batch_size" ;;
  _ <- method next_inputs "set_shape" [VList [batch_size; VNone]] [] ;;
  ret (bs_output, next_inputs, beam_state).

(** Lines 260 to 269 of [step]: the beam search step on the logits, then the
    next inputs. *)
Definition step_beam_search (self : ConvDecoder)
    (time_ beam_state logits : value) : M (value * value * value) :=
  config <- read_global "config" ;;
  r <- foreign "beam_search.beam_search_step" []
         [ ("time_", time_);
           ("logits", logits);
           ("beam_state", beam_state);
           ("config", config) ] ;;
  p <- unpack2 r ;;
  let '(bs_output, beam_state) := p in
  step_next_inputs self bs_output beam_state.

Definition step (self : ConvDecoder) (time_ inputs beam_state name : value)
    : M (value * value * value) :=
  enc_output <- read_global "enc_output" ;;
  logits <- call_infer_conv_block self [enc_output; inputs] [] ;;
  step_beam_search self time_ beam_state logits.

Definition call_step (self : ConvDecoder) :=
  invoke step_sig
    (fun vs => match vs with
               | [time_; inputs; beam_state; name] =>
                 step self time_ inputs beam_state name
               | _ => arity_error
               end).

(** The locals that the loop of [conv_decoder_infer] carries from one turn to
    the next; [outputs_ta] has no assignment before the loop. *)
Record infer_locals : Type := Locals {
  l_inputs : value;
  l_beam_state : value;
  l_outputs_ta : option value
}.

(** Lines 279 to 292, one turn of the loop. *)
Definition infer_turn (self : ConvDecoder) (time_ : value) (l : infer_locals)
    : M infer_locals :=
  r <- call_step self [time_; l_inputs l; l_beam_state l] [] ;;
  let '(bs_output, next_inputs, beam_state) := r in
  create_next_inputs <- read_global "create_next_inputs" ;;
  inputs <- call_value create_next_inputs [l_inputs l; next_inputs] [] ;;
  BeamDecoderOutput <- read_global "BeamDecoderOutput" ;;
  config <- self_attr self "config" ;;
  beam_width <- getattr config "beam_width" ;;
  config <- self_attr self "config" ;;
  vocab <- getattr config "vocab_size" ;;
  zeros <- foreign "tf.zeros" [VList [beam_width; vocab]] [] ;;
  ids <- getattr bs_output "predicted_ids" ;;
  log_probs <- getattr beam_state "log_probs" ;;
  scores <- getattr bs_output "scores" ;;
  parents <- getattr bs_output "beam_parent_ids" ;;
  decoder_output <- read_global "decoder_output" ;;
  outputs <- call_value BeamDecoderOutput []
    [ ("logits", zeros);
      ("predicted_ids", ids);
      ("log_probs", log_probs);
      ("scores", scores);
      ("beam_parent_ids", parents);
      ("original_outputs", decoder_output) ] ;;
  outputs_ta <- read_local "outputs_ta" (l_outputs_ta l) ;;
  outputs_ta <- foreign "nest.map_structure"
    [ VLambda "lambda ta, out: ta.write(time, out)"; outputs_ta; outputs ] [] ;;
  ret (Locals inputs beam_state (Some outputs_ta)).

(** The block under [WHILE:].  The header names no condition and the block
    has no [break]: the body runs again and again until it raises; a run that
    would start the body more than [budget] times is cut off. *)
Fixpoint while_loop (n : nat) (self : ConvDecoder) (time_ : value)
    (l : infer_locals) : M infer_locals :=
  match n with
  | O => raise LoopBudget
  | S n' =>
    l' <- infer_turn self time_ l ;;
    while_loop n' self time_ l'
  end.

Definition conv_decoder_infer_sig : signature :=
  [ ("decoder", None); ("enc_output", None); ("target_embedding", None);
    ("start_tokens", None); ("config", None) ].

Definition conv_decoder_infer (self : ConvDecoder)
    (decoder enc_output target_embedding start_tokens config : value)
    : M ConvDecoderOutput :=
  create_init_state <- read_global "create_init_state" ;;
  r <- call_value create_init_state
         [config; target_embedding; start_tokens] [] ;;
  p <- unpack2 r ;;
  let '(inputs, beam_state) := p in
  let time_ := VInt 0 in
  _ <- while_loop budget self time_ (Locals inputs beam_state None) ;;
  final_outputs_ta <- read_global "final_outputs_ta" ;;
  final_outputs <- foreign "nest.map_structure"
                     [VLambda "lambda ta: ta.stack()"; final_outputs_ta] [] ;;
  logits <- read_global "logits" ;;
  best <- foreign "tf.argmax" [logits] [ ("axis", VInt (-1)) ] ;;
  sample_ids <- foreign "tf.cast" [best; VObj "tf.int32" []] [] ;;
  logits <- read_global "logits" ;;
  new_ConvDecoderOutput logits sample_ids.

Definition call_conv_decoder_train (self : ConvDecoder) :=
  invoke conv_decoder_train_sig
    (fun vs => match vs with
               | [decoder; enc_output; labels; sequence_length] =>
                 conv_decoder_train self decoder enc_output labels
                   sequence_length
               | _ => arity_error
               end).

Definition call_conv_decoder_infer (self : ConvDecoder) :=
  invoke conv_decoder_infer_sig
    (fun vs => match vs with
               | [decoder; enc_output; target_embedding; start_tokens;
                  config] =>
                 conv_decoder_infer self decoder enc_output target_embedding
                   start_tokens config
               | _ => arity_error
               end).

Definition _build_sig : signature :=
  [ ("enc_output", None); ("labels", Some VNone);
    ("sequence_length", Some VNone); ("target_embedding", Some VNone);
    ("start_tokens", Some VNone); ("config", Some VNone) ].

(** A method as [_build] finds it on [self]: called with positional and
    keyword arguments. *)
Definition bound_method : Type :=
  list value -> list (string * value) -> M ConvDecoderOutput.

(** The body of [_build], over the two methods it looks up on [self]: the
    class is abstract ([abc.ABCMeta]) and a subclass may define them anew. *)
Definition _build_over (conv_decoder_infer conv_decoder_train : bound_method)
    (self : ConvDecoder)
    (enc_output labels sequence_length target_embedding start_tokens
     config : value) : M (ConvDecoderOutput * ConvDecoderOutput) :=
  let maximum_iterations := VNone in
  if mode_is self ModeKeys.INFER then
    maximum_iterations <- param self "max_decode_length" ;;
    outputs <- conv_decoder_infer []
      [ ("decoder", self_value);
        ("enc_output", enc_output);
        ("target_embedding", target_embedding);
        ("start_tokens", start_tokens);
        ("config", config) ] ;;
    ret (outputs, outputs)
  else
    outputs <- conv_decoder_train []
      [ ("decoder", self_value);
        ("enc_output", enc_output);
        ("labels", labels);
        ("sequence_length", sequence_length) ] ;;
    ret (outputs, outputs).

(** [_build] on an instance of the class itself. *)
Definition _build (self : ConvDecoder) :=
  _build_over (call_conv_decoder_infer self) (call_conv_decoder_train self)
    self.

Definition call__build (self : ConvDecoder) :=
  invoke _build_sig
    (fun vs => match vs with
               | [enc_output; labels; sequence_length; target_embedding;
                  start_tokens; config] =>
                 _build self enc_output labels sequence_length
                   target_embedding start_tokens config
               | _ => arity_error
               end).

Definition compute_output_sig : signature := [ ("cell_output", None) ].

Definition call_compute_output (self : ConvDecoder) :=
  invoke compute_output_sig
    (fun vs => match vs with
               | [cell_output] => compute_output self cell_output
               | _ => arity_error
               end).

Definition call_create_init_state (self : ConvDecoder) :=
  invoke create_init_state_sig
    (fun vs => match vs with
               | [config; target_embedding; start_tokens] =>
                 create_init_state self config target_embedding start_tokens
               | _ => arity_error
               end).

Definition forget {A} (m : M A) : M unit := _ <- m ;; ret tt.

(** [self.meth(a, k)], once the module is there. *)
Definition dispatch (self : ConvDecoder) (meth : string) (a : list value)
    (k : list (string * value)) : M unit :=
  if String.eqb meth "compute_output" then forget (call_compute_output self a k)
  else if String.eqb meth "conv_decoder_train"
       then forget (call_conv_decoder_train self a k)
  else if String.eqb meth "infer_conv_block"
       then forget (call_infer_conv_block self a k)
  else if String.eqb meth "create_init_state"
       then forget (call_create_init_state self a k)
  else if String.eqb meth "next_inputs" then forget (call_next_inputs self a k)
  else if String.eqb meth "step" then forget (call_step self a k)
  else if String.eqb meth "conv_decoder_infer"
       then forget (call_conv_decoder_infer self a k)
  else if String.eqb meth "_build" then forget (call__build self a k)
  else raise (AttributeError meth).

(** A method call of a program that first has to import the module. *)
Definition run (self : ConvDecoder) (meth : string) (a : list value)
    (k : list (string * value)) : M unit :=
  _ <- lift Source.load ;;
  dispatch self meth a k.

End Decoder.

(** ** A framework that only records *)

(** The framework in which every call returns a fresh description of itself;
    [as_list] gives the three dimensions (batch, time, depth) of its tensor. *)
Definition symbolic (f : string) (a : list value)
    (k : list (string * value)) : result value :=
  if String.eqb f ".as_list" then
    Ok (VList [ VObj "dim" (a ++ [VInt 0]); VObj "dim" (a ++ [VInt 1]);
                VObj "dim" (a ++ [VInt 2]) ])
  else if String.eqb f "ConvEncoderUtils.parse_list_or_default" then
    Ok (VList [ VObj f (a ++ [VInt 0]); VObj f (a ++ [VInt 1]);
                VObj f (a ++ [VInt 2]) ])
  else Ok (VObj f (a ++ [VDict k])).

Definition tensor (name : string) : value := VObj name [].

(** A decoder as [__init__] leaves it, with [tensorflow.add] located. *)
Definition decoder_with (params : gmap string value) (mode : string)
    : ConvDecoder :=
  MkDecoder params mode "conv_decoder_fairseq" (VInt 32000)
    (tensor "attention_keys") (tensor "attention_values")
    (tensor "attention_values_length") (tensor "attention_fn") VNone
    (VObj "tensorflow.add" []).

Definition with_params (self : ConvDecoder) (p : gmap string value)
    : ConvDecoder :=
  MkDecoder p (mode self) (name self) (vocab_size self)
    (attention_keys self) (attention_values self)
    (attention_values_length self) (attention_fn self)
    (reverse_scores_lengths self) (_combiner_fn self).

(** The parameters of a signature, each with whether it has a default. *)
Definition declares (ps : signature) : list (string * bool) :=
  map (fun p => (fst p, match snd p with Some _ => true | None => false end))
    ps.

(** Frameworks whose calls come back, with results of the documented kind:
    the named functions are those a method of the class calls before it
    reaches one of its unbound names. *)
Definition comes_back
    (ext : string -> list value -> list (string * value) -> result value)
    (f : string) : Prop :=
  forall a k, exists v, ext f a k = Ok v.

Record well_behaved
    (ext : string -> list value -> list (string * value) -> result value)
    : Prop := {
  wb_dropout : comes_back ext "tf.contrib.layers.dropout";
  wb_scope : comes_back ext "tf.variable_scope";
  wb_linear : comes_back ext "ConvEncoderUtils.linear_mapping";
  wb_beam : comes_back ext "beam_search.create_initial_beam_state";
  wb_lookup : forall a k, exists h p,
      ext "tf.nn.embedding_lookup" a k = Ok (VObj h p);
  wb_parse : forall a k, exists x xs,
      ext "ConvEncoderUtils.parse_list_or_default" a k = Ok (VList (x :: xs));
  wb_shape : forall a k, exists h p, ext ".get_shape" a k = Ok (VObj h p);
  wb_list : forall a k, exists d ds, ext ".as_list" a k = Ok (VList (d :: ds))
}.

(** [as_list] gives a Python list whenever it returns. *)
Definition lists_are_lists
    (ext : string -> list value -> list (string * value) -> result value)
    : Prop :=
  forall a k v, ext ".as_list" a k = Ok v -> exists ds, v = VList ds.

(** Sample instances: one for training with the default parameters, one for
    inference with a decode length added to them. *)
Definition train_decoder : ConvDecoder :=
  decoder_with default_params ModeKeys.TRAIN.

Definition infer_decoder : ConvDecoder :=
  decoder_with (<["max_decode_length" := VInt 50]> default_params)
    ModeKeys.INFER.

(** The parameters hold every key of [default_params]. *)
Definition covers_defaults (p : gmap string value) : Prop :=
  forall key, is_Some (default_params !! key) -> is_Some (p !! key).

(** The keys of [params] that [infer_conv_block] reads on its way to the
    convolution stack, [cnn.layers] apart. *)
Definition block_keys : list string :=
  [ "embedding_dropout_keep_prob"; "cnn.nhids"; "cnn.nhid_default";
    "cnn.kwidths"; "cnn.kwidth_default" ].

(** The parameters hold a value under each of the keys. *)
Definition holds_keys (p : gmap string value) (keys : list string) : bool :=
  forallb (fun key => match p !! key with Some _ => true | None => false end)
    keys.

(** The value of an expression; the record of calls has no part in it. *)
Definition eval {A} (m : M A) : result A := outcome m initial.

Definition fn_not_in (names : list string) (c : call) : Prop :=
  ~ In (fn c) names.

(** Calls that are neither a layer of the network nor part of the position
    embedding. *)
Definition quiet : call -> Prop :=
  fn_not_in [ "tf.contrib.layers.dropout"; "ConvEncoderUtils.linear_mapping";
              "ConvEncoderUtils.conv_decoder_stack"; "__call__";
              "_create_position_embedding" ].

(** What [conv_decoder_train] has done by the time it applies dropout to the
    embeddings: the first dropout call is preceded by no layer of the network
    and takes [inputs]; with position embeddings enabled, [inputs] is what the
    combiner returns for the labels and the position embedding, itself built
    from the last static dimension of the labels, the configured number of
    positions, the sequence lengths and the time extent of the labels; with
    position embeddings disabled, [inputs] is the labels and no combiner or
    position embedding is called at all. *)
Definition embeds_positions
    (ext : string -> list value -> list (string * value) -> result value)
    (self : ConvDecoder) (labels sequence_length : value)
    (record : list call) : Prop :=
  exists enable enabled keep_prob inputs pre post,
    params self !! "position_embeddings.enable" = Some enable
    /\ eval (truth ext enable) = Ok enabled
    /\ params self !! "embedding_dropout_keep_prob" = Some keep_prob
    /\ record
       = (pre ++ Call "tf.contrib.layers.dropout" []
                   [ ("inputs", inputs); ("keep_prob", keep_prob);
                     ("is_training", VBool (mode_is self ModeKeys.TRAIN)) ]
              :: post)%list
    /\ Forall (fn_not_in [ "tf.contrib.layers.dropout";
                           "ConvEncoderUtils.linear_mapping";
                           "ConvEncoderUtils.conv_decoder_stack" ]) pre
    /\ if enabled then
         exists shape dims embed_size num_positions extent maxlen
                positions_embed,
           ext ".get_shape" [labels] [] = Ok shape
           /\ ext ".as_list" [shape] [] = Ok dims
           /\ eval (getitem ext dims (VInt (-1))) = Ok embed_size
           /\ params self !! "position_embeddings.num_positions"
              = Some num_positions
           /\ ext "tf.shape" [labels] [] = Ok extent
           /\ eval (getitem ext extent (VInt 1)) = Ok maxlen
           /\ ext "_create_position_embedding" []
                [ ("embedding_dim", embed_size);
                  ("num_positions", num_positions);
                  ("lengths", sequence_length);
                  ("maxlen", maxlen) ] = Ok positions_embed
           /\ ext "__call__" [_combiner_fn self; labels; positions_embed] []
              = Ok inputs
           /\ In (Call "__call__"
                    [_combiner_fn self; labels; positions_embed] []) pre
       else
         inputs = labels
         /\ Forall (fn_not_in ["__call__"; "_create_position_embedding"])
              (pre ++ post)%list.

(** What [conv_decoder_train] returns: the logits are the time-major
    transpose of the linear mapping to [vocab_size] units, and the predicted
    ids are the [int32] cast of their argmax over the last axis. *)
Definition output_from_logits
    (ext : string -> list value -> list (string * value) -> result value)
    (self : ConvDecoder) (out : ConvDecoderOutput) : Prop :=
  exists x keep_prob mapped best,
    params self !! "out_dropout_keep_prob" = Some keep_prob
    /\ ext "ConvEncoderUtils.linear_mapping" [x; vocab_size self]
         [ ("dropout", keep_prob);
           ("var_scope_name", VStr "logits_before_softmax") ] = Ok mapped
    /\ ext "_transpose_batch_time" [mapped] [] = Ok (logits out)
    /\ ext "tf.argmax" [logits out] [ ("axis", VInt (-1)) ] = Ok best
    /\ ext "tf.cast" [best; VObj "tf.int32" []] [] = Ok (predicted_ids out).

(** [m] only adds to the record of calls, and every call it adds
    satisfies [P]. *)
Definition emits {A} (P : call -> Prop) (m : M A) : Prop :=
  forall s, exists tr, calls (final m s) = (calls s ++ tr)%list /\ Forall P tr.

(** What is asked of a call to the dropout layer: the flag [is_training]. *)
Definition dropout_flag (b : bool) (c : call) : Prop :=
  fn c = "tf.contrib.layers.dropout" ->
  kw_get (kwargs c) "is_training" = Some (VBool b).

(** What is asked of a call of a value [f]: the number of its arguments. *)
Definition called_with (f : value) (n : nat) (c : call) : Prop :=
  fn c = "__call__" ->
  exists a, args c = f :: a /\ length a = n /\ kwargs c = [].

Definition no_layers_decoder : ConvDecoder :=
  decoder_with (<["cnn.layers" := VInt 0]> default_params) ModeKeys.INFER.

Definition no_positions_decoder : ConvDecoder :=
  decoder_with (<["position_embeddings.enable" := VBool false]> default_params)
    ModeKeys.INFER.

(** How many of the recorded calls go to [f] with [n] positional
    arguments. *)
Definition count_calls (f : string) (n : nat) (record : list call) : nat :=
  length (filter (fun c => String.eqb (fn c) f
                           && Nat.eqb (length (args c)) n) record).

(** The required parameters among those declared. *)
Definition required (ps : list (string * bool)) : list string :=
  map fst (filter (fun p => negb (snd p)) ps).

(** The state once the call [f(a, k)] has been recorded. *)
Definition log (s : state) (f : string) (a : list value)
    (k : list (string * value)) : state :=
  State (calls s ++ [Call f a k]) (next_obj s).

(** ** What the methods read *)

(** The parameter keys that [conv_decoder_train], [infer_conv_block] and
    [create_init_state] look up. *)
Definition train_reads : list string :=
  [ "position_embeddings.enable"; "position_embeddings.num_positions";
    "embedding_dropout_keep_prob"; "cnn.layers"; "cnn.nhids";
    "cnn.nhid_default"; "cnn.kwidths"; "cnn.kwidth_default"; "nout_embed";
    "out_dropout_keep_prob" ].

Definition infer_reads : list string :=
  [ "embedding_dropout_keep_prob"; "cnn.layers"; "cnn.nhids";
    "cnn.nhid_default"; "cnn.kwidths"; "cnn.kwidth_default"; "nout_embed";
    "out_dropout_keep_prob" ].

Definition init_state_reads : list string :=
  [ "position_embeddings.enable"; "position_embeddings.num_positions" ].

(** The methods that no call can bring to a [return]. *)
Definition dead_methods : list string :=
  [ "compute_output"; "infer_conv_block"; "next_inputs"; "step";
    "conv_decoder_infer" ].

(** An instance with the parameters, mode, vocabulary size and combiner of
    [train_decoder] and nothing to attend over. *)
Definition bare_decoder : ConvDecoder :=
  MkDecoder default_params ModeKeys.TRAIN "bare" (VInt 32000) VNone VNone
    VNone VNone VNone (VObj "tensorflow.add" []).

(** * Properties *)

(** ** The monad *)

Lemma bind_ok_inv {A B} (m : M A) (k : A -> M B) s b s' :
  bind m k s = (Ok b, s') ->
  exists a s1, m s = (Ok a, s1) /\ k a s1 = (Ok b, s').
Proof.
  unfold bind. destruct (m s) as [[a|e] s1]; intros H.
  - exists a, s1. split; [reflexivity | exact H].
  - discriminate H.
Qed.

Lemma bind_err {A B} (m : M A) (k : A -> M B) s e s1 :
  m s = (Err e, s1) -> bind m k s = (Err e, s1).
Proof. unfold bind. intros ->. reflexivity. Qed.

(** ** What a run records *)

Lemma emitted_eq {A} (m : M A) s tr :
  calls (final m s) = (calls s ++ tr)%list -> emitted m s = tr.
Proof. unfold emitted. intros ->. apply drop_app_length. Qed.

Lemma emits_emitted {A} (P : call -> Prop) (m : M A) s :
  emits P m -> Forall P (emitted m s).
Proof.
  intros H. destruct (H s) as (tr & Htr & HP).
  rewrite (emitted_eq _ _ _ Htr). exact HP.
Qed.

Lemma emits_ret {A} P (a : A) : emits P (ret a).
Proof. intros s. exists []. split; [symmetry; apply app_nil_r | constructor]. Qed.

Lemma emits_raise {A} P e : emits P (@raise A e).
Proof. intros s. exists []. split; [symmetry; apply app_nil_r | constructor]. Qed.

Lemma emits_lift {A} P (r : result A) : emits P (lift r).
Proof. intros s. exists []. split; [symmetry; apply app_nil_r | constructor]. Qed.

Lemma emits_bind {A B} P (m : M A) (k : A -> M B) :
  emits P m -> (forall a, emits P (k a)) -> emits P (bind m k).
Proof.
  intros Hm Hk s. unfold final, bind.
  destruct (Hm s) as (tr1 & H1 & P1). unfold final in H1.
  destruct (m s) as [[a|e] s1]; simpl in H1.
  - destruct (Hk a s1) as (tr2 & H2 & P2). unfold final in H2.
    exists (tr1 ++ tr2)%list. split.
    + rewrite H2, H1. symmetry. apply app_assoc.
    + apply Forall_app. split; assumption.
  - exists tr1. split; assumption.
Qed.

Lemma emits_if {A} P (b : bool) (m1 m2 : M A) :
  emits P m1 -> emits P m2 -> emits P (if b then m1 else m2).
Proof. destruct b; intros; assumption. Qed.

Lemma emits_read_global P name : emits P (read_global name).
Proof.
  unfold read_global. destruct (bound_global name);
    [apply emits_ret | apply emits_raise].
Qed.

Lemma emits_read_local P name slot : emits P (read_local name slot).
Proof. destruct slot; [apply emits_ret | apply emits_raise]. Qed.

Lemma emits_param P self key : emits P (param self key).
Proof.
  unfold param. destruct (params self !! key);
    [apply emits_ret | apply emits_raise].
Qed.

Lemma emits_self_attr P self attr : emits P (self_attr self attr).
Proof.
  unfold self_attr.
  repeat match goal with
         | |- emits _ (if ?b then _ else _) => destruct b
         end;
    first [apply emits_ret | apply emits_raise].
Qed.

Lemma emits_new_output P l i : emits P (new_ConvDecoderOutput l i).
Proof. intros s. exists []. split; [symmetry; apply app_nil_r | constructor]. Qed.

Lemma emits_invoke {A} P ps (body : list value -> M A) a k :
  (forall vs, emits P (body vs)) -> emits P (invoke ps body a k).
Proof.
  intros H. unfold invoke. destruct (bind_args ps a k);
    [apply H | apply emits_raise].
Qed.

Lemma run_emits {A} (P : call -> Prop) (m : M A) s r s' :
  emits P m -> m s = (r, s') ->
  exists tr, calls s' = (calls s ++ tr)%list /\ Forall P tr.
Proof.
  intros H Hrun. destruct (H s) as (tr & Htr & HP).
  unfold final in Htr. rewrite Hrun in Htr. exists tr. split; assumption.
Qed.

Lemma ret_inv {A} (a b : A) s s' : ret a s = (Ok b, s') -> a = b /\ s = s'.
Proof. unfold ret. intros H. split; congruence. Qed.

Lemma param_inv self key v s s' :
  param self key s = (Ok v, s') -> params self !! key = Some v /\ s = s'.
Proof.
  unfold param. destruct (params self !! key); unfold ret, raise; intros H.
  - split; congruence.
  - discriminate H.
Qed.

Lemma bind_param {B} self key v (k : value -> M B) s :
  params self !! key = Some v -> bind (param self key) k s = k v s.
Proof. intros H. unfold bind, param. rewrite H. reflexivity. Qed.

Lemma bind_assoc {A B C} (m : M A) (f : A -> M B) (g : B -> M C) s :
  bind (bind m f) g s = bind m (fun a => bind (f a) g) s.
Proof.
  unfold bind. destruct (m s) as [[a|e] s1]; reflexivity.
Qed.

Lemma index_last {A} (x : A) xs : exists v, index_seq (x :: xs) (-1) = Ok v.
Proof.
  unfold index_seq.
  assert (Hlen : (Z.of_nat (length (x :: xs)) = Z.of_nat (length xs) + 1)%Z).
  { simpl length. lia. }
  replace (-1 <? 0) with true by reflexivity. rewrite Hlen.
  replace (-1 + (Z.of_nat (length xs) + 1)) with (Z.of_nat (length xs)) by lia.
  replace (0 <=? Z.of_nat (length xs)) with true by (symmetry; apply Z.leb_le; lia).
  replace (Z.of_nat (length xs) <? Z.of_nat (length xs) + 1) with true
    by (symmetry; apply Z.ltb_lt; lia).
  rewrite Nat2Z.id. simpl andb. cbv iota.
  destruct (nth_error (x :: xs) (length xs)) eqn:Hn; [eexists; reflexivity |].
  apply nth_error_None in Hn. simpl in Hn. lia.
Qed.

Lemma quiet_layers c :
  quiet c ->
  fn_not_in [ "tf.contrib.layers.dropout"; "ConvEncoderUtils.linear_mapping";
              "ConvEncoderUtils.conv_decoder_stack" ] c.
Proof. unfold quiet, fn_not_in. simpl. tauto. Qed.

Lemma quiet_embedding c :
  quiet c -> fn_not_in ["__call__"; "_create_position_embedding"] c.
Proof. unfold quiet, fn_not_in. simpl. tauto. Qed.

Lemma calls_log s f a k : calls (log s f a k) = (calls s ++ [Call f a k])%list.
Proof. reflexivity. Qed.

Lemma bind_ret {A B} (a : A) (k : A -> M B) s : bind (ret a) k s = k a s.
Proof. reflexivity. Qed.

Lemma bind_lift_ok {A B} (a : A) (k : A -> M B) s : bind (lift (Ok a)) k s = k a s.
Proof. reflexivity. Qed.

Lemma bind_run {A B} (m : M A) (k : A -> M B) s a s1 :
  m s = (Ok a, s1) -> bind m k s = k a s1.
Proof. intros H. unfold bind. rewrite H. reflexivity. Qed.

Lemma run_of {A} (m : M A) s a :
  outcome m s = Ok a -> exists s1, m s = (Ok a, s1).
Proof.
  unfold outcome. destruct (m s) as [r s1]. simpl. intros ->. eauto.
Qed.

Lemma held p keys key :
  holds_keys p keys = true -> In key keys -> exists v, p !! key = Some v.
Proof.
  unfold holds_keys. rewrite forallb_forall. intros H Hin.
  specialize (H key Hin). destruct (p !! key); [eauto | discriminate].
Qed.

Lemma index_first {A} (x : A) xs : index_seq (x :: xs) 0 = Ok x.
Proof.
  unfold index_seq. simpl length.
  replace (0 <? Z.of_nat (S (length xs))) with true
    by (symmetry; apply Z.ltb_lt; lia).
  reflexivity.
Qed.

Lemma covered p key :
  covers_defaults p -> is_Some (default_params !! key) -> exists v, p !! key = Some v.
Proof. intros H Hk. destruct (H key Hk) as [v Hv]. exists v. exact Hv. Qed.

Ltac emits_step :=
  cbv beta;
  lazymatch goal with
  | |- emits _ (bind _ _) => apply emits_bind; [| intros ?]
  | |- emits _ (ret _) => apply emits_ret
  | |- emits _ (raise _) => apply emits_raise
  | |- emits _ (lift _) => apply emits_lift
  | |- emits _ (param _ _) => apply emits_param
  | |- emits _ (read_global _) => apply emits_read_global
  | |- emits _ (read_local _ _) => apply emits_read_local
  | |- emits _ (self_attr _ _) => apply emits_self_attr
  | |- emits _ (new_ConvDecoderOutput _ _) => apply emits_new_output
  | |- emits _ (invoke _ _ _ _) => apply emits_invoke; intros ?
  | |- emits _ (if _ then _ else _) => apply emits_if
  | |- emits _ (match ?x with _ => _ end) => destruct x
  end.

Ltac side_condition :=
  let Hfn := fresh "Hfn" in
  first [ progress (unfold dropout_flag; simpl; intros Hfn);
          first [discriminate Hfn | reflexivity]
        | progress (unfold called_with; simpl; intros Hfn);
          first [discriminate Hfn
                | eexists; split; [reflexivity | split; reflexivity]] ].

Section Primitives.

Context (ext : string -> list value -> list (string * value) -> result value).

Lemma emits_foreign P f a k : P (Call f a k) -> emits P (foreign ext f a k).
Proof.
  intros H s. exists [Call f a k]. split; [reflexivity |].
  constructor; [exact H | constructor].
Qed.

Lemma emits_method P recv name a k :
  P (Call ("." ++ name) (recv :: a) k) -> emits P (method ext recv name a k).
Proof.
  intros H. destruct recv; simpl;
    first [apply emits_raise | apply emits_foreign; exact H].
Qed.

Lemma emits_getattr P recv name :
  P (Call "getattr" [recv; VStr name] []) -> emits P (getattr ext recv name).
Proof.
  intros H. destruct recv; simpl;
    first [apply emits_raise | apply emits_foreign; exact H].
Qed.

Lemma emits_getitem P recv idx :
  P (Call "__getitem__" [recv; idx] []) -> emits P (getitem ext recv idx).
Proof.
  intros H. unfold getitem.
  repeat match goal with
         | |- emits _ (match ?x with _ => _ end) => destruct x
         end;
    first [apply emits_raise | apply emits_ret | apply emits_lift
          | apply emits_foreign; exact H].
Qed.

Lemma emits_call_value P f a k :
  P (Call "__call__" (f :: a) k) -> emits P (call_value ext f a k).
Proof.
  intros H. destruct f; simpl;
    first [apply emits_raise | apply emits_foreign; exact H].
Qed.

Lemma emits_truth P v :
  P (Call "__bool__" [v] []) -> emits P (truth ext v).
Proof.
  intros H. destruct v; simpl; try apply emits_ret.
  apply emits_bind; [apply emits_foreign; exact H |].
  intros []; first [apply emits_ret | apply emits_raise].
Qed.

Lemma emits_gt_zero P v :
  P (Call "__gt__" [v; VInt 0] []) ->
  (forall r, P (Call "__bool__" [r] [])) ->
  emits P (gt_zero ext v).
Proof.
  intros H Hb. destruct v; simpl; try apply emits_ret; try apply emits_raise.
  apply emits_bind; [apply emits_foreign; exact H |].
  intros r. apply emits_truth, Hb.
Qed.

Lemma emits_add P a b :
  P (Call "__add__" [a; b] []) -> P (Call "__radd__" [b; a] []) ->
  emits P (add ext a b).
Proof.
  intros H1 H2. unfold add.
  repeat match goal with
         | |- emits _ (match ?x with _ => _ end) => destruct x
         end;
    first [apply emits_raise | apply emits_ret
          | apply emits_foreign; assumption].
Qed.

Lemma emits_unpack2 P v :
  P (Call "__iter__" [v] []) -> emits P (unpack2 ext v).
Proof.
  intros H. unfold unpack2. apply emits_bind.
  - destruct v; try apply emits_ret; try apply emits_raise.
    apply emits_bind; [apply emits_foreign; exact H |].
    intros []; first [apply emits_ret | apply emits_raise].
  - intros items.
    repeat match goal with
           | |- emits _ (match ?x with _ => _ end) => destruct x
           end;
      first [apply emits_ret | apply emits_raise].
Qed.

Lemma emits_variable_scope {A} P scope (body : M A) :
  P (Call "tf.variable_scope" [VStr scope] []) ->
  emits P body -> emits P (variable_scope ext scope body).
Proof.
  intros H Hb. unfold variable_scope.
  apply emits_bind; [apply emits_foreign; exact H | intros _; exact Hb].
Qed.

Lemma foreign_inv f a k s r s' :
  foreign ext f a k s = (r, s') -> ext f a k = r /\ s' = log s f a k.
Proof. unfold foreign, log. intros H. split; congruence. Qed.

Lemma bind_foreign {B} f a kw v (k : value -> M B) s :
  ext f a kw = Ok v -> bind (foreign ext f a kw) k s = k v (log s f a kw).
Proof. intros H. unfold bind, foreign. rewrite H. reflexivity. Qed.

Lemma method_inv recv name a k s v s' :
  method ext recv name a k s = (Ok v, s') ->
  (exists h p, recv = VObj h p)
  /\ ext ("." ++ name) (recv :: a) k = Ok v
  /\ s' = log s ("." ++ name) (recv :: a) k.
Proof.
  destruct recv; simpl; try (unfold raise; discriminate).
  intros H. apply foreign_inv in H as [H1 H2]. eauto.
Qed.

Lemma call_value_inv f a k s v s' :
  call_value ext f a k s = (Ok v, s') ->
  ext "__call__" (f :: a) k = Ok v /\ s' = log s "__call__" (f :: a) k.
Proof.
  destruct f; simpl; try (unfold raise; discriminate);
    intros H; apply foreign_inv in H as [H1 H2]; eauto.
Qed.

(** The outcome of an operation on values does not depend on the state. *)
Lemma getitem_eval recv idx s :
  outcome (getitem ext recv idx) s = eval (getitem ext recv idx).
Proof.
  unfold eval, outcome, getitem.
  repeat match goal with
         | |- context [match ?x with _ => _ end] => destruct x
         end; reflexivity.
Qed.

Lemma call_value_eval f a k s :
  outcome (call_value ext f a k) s = eval (call_value ext f a k).
Proof. destruct f; reflexivity. Qed.

Lemma truth_eval v s : outcome (truth ext v) s = eval (truth ext v).
Proof.
  destruct v; try reflexivity.
  unfold eval, outcome. simpl. unfold bind, foreign.
  destruct (ext "__bool__" _ _) as [[]|]; reflexivity.
Qed.

Lemma gt_zero_eval v s : outcome (gt_zero ext v) s = eval (gt_zero ext v).
Proof.
  destruct v; try reflexivity.
  unfold eval, outcome. simpl. unfold bind, foreign.
  destruct (ext "__gt__" _ _) as [r|]; [| reflexivity].
  cbv beta iota.
  exact (eq_trans (truth_eval r _) (eq_sym (truth_eval r _))).
Qed.

End Primitives.

Ltac emits_call :=
  cbv beta;
  lazymatch goal with
  | |- emits _ (foreign _ _ _ _) => apply emits_foreign
  | |- emits _ (method _ _ _ _ _) => apply emits_method
  | |- emits _ (getattr _ _ _) => apply emits_getattr
  | |- emits _ (getitem _ _ _) => apply emits_getitem
  | |- emits _ (call_value _ _ _ _) => apply emits_call_value
  | |- emits _ (truth _ _) => apply emits_truth
  | |- emits _ (gt_zero _ _) => apply emits_gt_zero; [| intros ?]
  | |- emits _ (add _ _ _) => apply emits_add
  | |- emits _ (unpack2 _ _) => apply emits_unpack2
  | |- emits _ (variable_scope _ _ _) => apply emits_variable_scope
  end.

Ltac emits_all :=
  repeat first [emits_step | emits_call | side_condition].

Ltac not_in := unfold fn_not_in; simpl; intuition discriminate.

Ltac emits_quiet := repeat first [emits_step | emits_call | not_in].

Ltac peel H := repeat (apply bind_ok_inv in H as (? & ? & ? & H)).

Ltac front := cbv beta; repeat rewrite bind_assoc; cbv beta.

Ltac fwd_param :=
  front;
  lazymatch goal with
  | |- context [bind (param ?self ?key) ?k ?s] =>
    erewrite (bind_param self key _ k s) by eassumption
  end.

Ltac fwd_foreign lem :=
  front;
  lazymatch goal with
  | |- context [bind (foreign ?e ?f ?a ?kw) ?k ?s] =>
    let v := fresh "v" in
    let Hv := fresh "Hv" in
    destruct (lem a kw) as (v & Hv);
    rewrite (bind_foreign e f a kw v k s Hv)
  end.

Ltac fwd_rec :=
  front;
  lazymatch goal with
  | |- context [bind (foreign symbolic ?f ?a ?kw) ?k ?s] =>
    erewrite (bind_foreign symbolic f a kw _ k s) by reflexivity
  end.

(** ** The methods *)

Section Facts.

Context (ext : string -> list value -> list (string * value) -> result value).
Context (budget : nat).

Lemma train_dropout_flags self decoder enc_output labels sequence_length :
  emits (dropout_flag (mode_is self ModeKeys.TRAIN))
    (conv_decoder_train ext self decoder enc_output labels sequence_length).
Proof. unfold conv_decoder_train. emits_all. Qed.

Lemma infer_block_dropout_flags self enc_output input_embed :
  emits (dropout_flag (mode_is self ModeKeys.INFER))
    (infer_conv_block ext self enc_output input_embed).
Proof. unfold infer_conv_block. emits_all. Qed.

Lemma train_combiner_arity self decoder enc_output labels sequence_length :
  emits (called_with (_combiner_fn self) 2)
    (conv_decoder_train ext self decoder enc_output labels sequence_length).
Proof. unfold conv_decoder_train. emits_all. Qed.

Lemma init_state_combiner_arity self config target_embedding start_tokens :
  emits (called_with (_combiner_fn self) 1)
    (create_init_state ext self config target_embedding start_tokens).
Proof. unfold create_init_state. emits_all. Qed.

(** Every run of [conv_decoder_infer] stops at its first statement, where the
    method [create_init_state] is read as a global name; nothing has been
    called by then. *)
Lemma conv_decoder_infer_stops self decoder enc_output target_embedding
    start_tokens config s :
  conv_decoder_infer ext budget self decoder enc_output target_embedding
    start_tokens config s
  = (Err (NameError "create_init_state"), s).
Proof. reflexivity. Qed.

(** Every run of [step] stops where it reads [enc_output]. *)
Lemma step_stops self time_ inputs beam_state name s :
  step ext self time_ inputs beam_state name s
  = (Err (NameError "enc_output"), s).
Proof. reflexivity. Qed.

(** [_build], with the keyword arguments of its two calls bound. *)
Lemma build_eq self enc_output labels sequence_length target_embedding
    start_tokens config s :
  _build ext budget self enc_output labels sequence_length target_embedding
    start_tokens config s
  = if String.eqb (mode self) ModeKeys.INFER
    then (maximum_iterations <- param self "max_decode_length" ;;
          outputs <- conv_decoder_infer ext budget self self_value enc_output
                       target_embedding start_tokens config ;;
          ret (outputs, outputs)) s
    else (outputs <- conv_decoder_train ext self self_value enc_output labels
                       sequence_length ;;
          ret (outputs, outputs)) s.
Proof.
  unfold _build, _build_over, mode_is.
  destruct (String.eqb (mode self) ModeKeys.INFER); reflexivity.
Qed.

Lemma build_infer_missing_key self enc_output labels sequence_length
    target_embedding start_tokens config s :
  mode self = ModeKeys.INFER ->
  params self !! "max_decode_length" = None ->
  _build ext budget self enc_output labels sequence_length target_embedding
    start_tokens config s
  = (Err (KeyError "max_decode_length"), s).
Proof.
  intros Hm Hk. rewrite build_eq, Hm. simpl.
  unfold bind, param. rewrite Hk. reflexivity.
Qed.

Lemma build_infer_with_key self enc_output labels sequence_length
    target_embedding start_tokens config s v :
  mode self = ModeKeys.INFER ->
  params self !! "max_decode_length" = Some v ->
  _build ext budget self enc_output labels sequence_length target_embedding
    start_tokens config s
  = (Err (NameError "create_init_state"), s).
Proof.
  intros Hm Hk. rewrite build_eq, Hm. simpl.
  unfold bind, param. rewrite Hk. reflexivity.
Qed.

Lemma param_other_key self p v key :
  key <> "max_decode_length" ->
  param (with_params self (<["max_decode_length" := v]> p)) key
  = param (with_params self p) key.
Proof.
  intros Hne. unfold param. simpl.
  rewrite lookup_insert_ne by congruence. reflexivity.
Qed.

(** The training path reads no [max_decode_length]. *)
Lemma train_ignores_max_decode_length self p v decoder enc_output labels
    sequence_length :
  conv_decoder_train ext (with_params self (<["max_decode_length" := v]> p))
    decoder enc_output labels sequence_length
  = conv_decoder_train ext (with_params self p) decoder enc_output labels
      sequence_length.
Proof.
  unfold conv_decoder_train.
  rewrite !param_other_key by discriminate.
  reflexivity.
Qed.

Lemma build_pair self enc_output labels sequence_length target_embedding
    start_tokens config s o1 o2 s' :
  _build ext budget self enc_output labels sequence_length target_embedding
    start_tokens config s = (Ok (o1, o2), s') ->
  o1 = o2.
Proof.
  rewrite build_eq.
  destruct (String.eqb (mode self) ModeKeys.INFER).
  - intros H. apply bind_ok_inv in H as (v & s1 & _ & H).
    rewrite (bind_err _ _ _ _ _ (conv_decoder_infer_stops _ _ _ _ _ _ _)) in H.
    discriminate H.
  - intros H. apply bind_ok_inv in H as (o & s1 & _ & H).
    unfold ret in H. congruence.
Qed.

Lemma train_embedding self decoder enc_output labels sequence_length s out s' :
  conv_decoder_train ext self decoder enc_output labels sequence_length s
  = (Ok out, s') ->
  embeds_positions ext self labels sequence_length
    (emitted (conv_decoder_train ext self decoder enc_output labels
                sequence_length) s).
Proof.
  unfold embeds_positions.
  intros H. pose proof H as Hrun. unfold conv_decoder_train in H.
  do 8 (apply bind_ok_inv in H as (? & ? & ? & H)).
  match type of H with
  | ?m ?st = (Ok out, s') =>
    assert (Hpost : emits (fn_not_in ["__call__"; "_create_position_embedding"]) m)
      by emits_quiet;
    destruct (run_emits _ _ _ _ _ Hpost H) as (post & Hs' & Hpost')
  end.
  clear H Hpost.
  assert (Hq : forall recv idx, emits quiet (getitem ext recv idx))
    by (intros; apply emits_getitem; unfold quiet; not_in).
  assert (Ht : forall v, emits quiet (truth ext v))
    by (intros; apply emits_truth; unfold quiet; not_in).
  repeat match goal with
         | Hm : method _ _ _ _ _ _ = _ |- _ =>
           apply method_inv in Hm as (_ & ? & ?)
         | Hp : param _ _ _ = _ |- _ => apply param_inv in Hp as (? & ?)
         | Hf : foreign _ _ _ _ _ = _ |- _ => apply foreign_inv in Hf as (? & ?)
         end.
  match goal with
  | Hg : getitem _ ?d ?i ?st = (Ok ?v, _) |- _ =>
    assert (Hdim : eval (getitem ext d i) = Ok v)
      by (rewrite <- (getitem_eval ext _ _ st); unfold outcome; rewrite Hg;
          reflexivity);
    destruct (run_emits _ _ _ _ _ (Hq _ _) Hg) as (tr3 & Hc3 & Hq3); clear Hg
  end.
  match goal with
  | Hg : truth _ ?e ?st = (Ok ?b, _) |- _ =>
    assert (Hen : eval (truth ext e) = Ok b)
      by (rewrite <- (truth_eval ext _ st); unfold outcome; rewrite Hg;
          reflexivity);
    destruct (run_emits _ _ _ _ _ (Ht _) Hg) as (tr5 & Hc5 & Hq5); clear Hg
  end.
  subst.
  assert (Hfinal : forall tr,
             calls s' = (calls s ++ tr)%list ->
             emitted (conv_decoder_train ext self decoder enc_output labels
                        sequence_length) s = tr).
  { intros tr Htr. apply emitted_eq. unfold final. rewrite Hrun. exact Htr. }
  match goal with
  | Hb : (if ?b then _ else _) _ = _ |- _ => destruct b
  end.
  - match goal with
    | Hb : bind _ _ _ = _ |- _ => peel Hb; rename Hb into Hcall
    end.
    apply call_value_inv in Hcall as (Hcall & ?).
    repeat match goal with
           | Hp : param _ _ _ = _ |- _ => apply param_inv in Hp as (? & ?)
           | Hf : foreign _ _ _ _ _ = _ |- _ =>
             apply foreign_inv in Hf as (? & ?)
           end.
    match goal with
    | Hg : getitem _ ?d ?i ?st = (Ok ?v, _) |- _ =>
      assert (Hlen : eval (getitem ext d i) = Ok v)
        by (rewrite <- (getitem_eval ext _ _ st); unfold outcome; rewrite Hg;
            reflexivity);
      destruct (run_emits _ _ _ _ _ (Hq _ _) Hg) as (tr7 & Hc7 & Hq7);
      clear Hg
    end.
    subst.
    do 4 eexists.
    eexists ([Call ".get_shape" [labels] []] ++ [Call ".as_list" [_] []]
             ++ tr3 ++ tr5 ++ [Call "tf.shape" [labels] []] ++ tr7
             ++ [Call "_create_position_embedding" [] _]
             ++ [Call "__call__" [_combiner_fn self; labels; _] []])%list.
    exists post.
    split; [eassumption |]. split; [eassumption |].
    split; [eassumption |]. split.
    { apply Hfinal. rewrite Hs', !calls_log, Hc7, !calls_log, Hc5, Hc3.
      rewrite !calls_log. repeat rewrite <- app_assoc. reflexivity. }
    split.
    { repeat first [apply Forall_cons; split | apply Forall_app; split
                   | apply Forall_nil];
        try (eapply Forall_impl; [eassumption | apply quiet_layers]);
        not_in. }
    do 7 eexists. repeat (split; [eassumption |]).
    repeat (apply in_or_app; right). left. reflexivity.
  - match goal with
    | Hb : ret _ _ = _ |- _ => apply ret_inv in Hb as (<- & <-)
    end.
    do 4 eexists.
    exists ([Call ".get_shape" [labels] []] ++ [Call ".as_list" [x] []]
            ++ tr3 ++ tr5)%list, post.
    split; [eassumption |]. split; [eassumption |].
    split; [eassumption |]. split.
    { apply Hfinal. rewrite Hs', !calls_log, Hc5, Hc3, !calls_log.
      repeat rewrite <- app_assoc. reflexivity. }
    split.
    { repeat first [apply Forall_cons; split | apply Forall_app; split
                   | apply Forall_nil];
        try (eapply Forall_impl; [eassumption | apply quiet_layers]);
        not_in. }
    split; [reflexivity |].
    repeat first [apply Forall_cons; split | apply Forall_app; split
                 | apply Forall_nil];
      try (eapply Forall_impl; [eassumption | apply quiet_embedding]);
      try assumption; not_in.
Qed.

Lemma train_output self decoder enc_output labels sequence_length s out s' :
  conv_decoder_train ext self decoder enc_output labels sequence_length s
  = (Ok out, s') ->
  output_from_logits ext self out.
Proof.
  intros H. unfold conv_decoder_train in H. peel H.
  match goal with
  | Hs : variable_scope _ "softmax" _ _ = _ |- _ =>
    unfold variable_scope in Hs; peel Hs
  end.
  repeat match goal with
         | Hp : param _ _ _ = _ |- _ => apply param_inv in Hp as (? & ?)
         | Hf : foreign _ _ _ _ _ = _ |- _ =>
           apply foreign_inv in Hf as (? & ?)
         end.
  unfold new_ConvDecoderOutput in H. injection H as <- _.
  unfold output_from_logits. simpl. eauto 10.
Qed.

Lemma infer_block_reads_inputs self enc_output input_embed s layers :
  well_behaved ext ->
  holds_keys (params self) block_keys = true ->
  params self !! "cnn.layers" = Some layers ->
  eval (gt_zero ext layers) = Ok true ->
  outcome (infer_conv_block ext self enc_output input_embed) s
  = Err (NameError "inputs").
Proof.
  intros Hwb Hkeys Hlayers Hgt.
  destruct (held _ _ "embedding_dropout_keep_prob" Hkeys) as [kp Hkp];
    [simpl; tauto |].
  destruct (held _ _ "cnn.nhids" Hkeys) as [nh Hnh]; [simpl; tauto |].
  destruct (held _ _ "cnn.nhid_default" Hkeys) as [nd Hnd]; [simpl; tauto |].
  destruct (held _ _ "cnn.kwidths" Hkeys) as [kw Hkw]; [simpl; tauto |].
  destruct (held _ _ "cnn.kwidth_default" Hkeys) as [kd Hkd];
    [simpl; tauto |].
  unfold outcome, infer_conv_block, variable_scope.
  fwd_param. fwd_foreign (wb_dropout _ Hwb). fwd_foreign (wb_scope _ Hwb).
  fwd_param. front.
  lazymatch goal with
  | |- context [bind (gt_zero ext layers) ?k ?s0] =>
    destruct (run_of (gt_zero ext layers) s0 true) as [s1 Hs1];
      [rewrite gt_zero_eval; exact Hgt |];
    rewrite (bind_run _ k s0 true s1 Hs1)
  end.
  do 3 fwd_param.
  front.
  lazymatch goal with
  | |- context [bind (foreign ?e ?f ?a ?kw) ?k ?s] =>
    destruct (wb_parse _ Hwb a kw) as (x & xs & Hx);
    rewrite (bind_foreign e f a kw _ k s Hx)
  end.
  do 3 fwd_param.
  front.
  lazymatch goal with
  | |- context [bind (foreign ?e ?f ?a ?kw) ?k ?s] =>
    destruct (wb_parse _ Hwb a kw) as (y & ys & Hy);
    rewrite (bind_foreign e f a kw _ k s Hy)
  end.
  front. simpl getitem. rewrite index_first, bind_lift_ok.
  fwd_param. fwd_foreign (wb_linear _ Hwb).
  front. reflexivity.
Qed.


Lemma init_state_reads_positions_embed self config target_embedding
    start_tokens s enable :
  well_behaved ext ->
  params self !! "position_embeddings.enable" = Some enable ->
  eval (truth ext enable) = Ok false ->
  outcome (create_init_state ext self config target_embedding start_tokens) s
  = Err (UnboundLocalError "positions_embed").
Proof.
  intros Hwb Hen Hfalse. unfold outcome, create_init_state.
  fwd_foreign (wb_beam _ Hwb).
  front.
  lazymatch goal with
  | |- context [bind (foreign ?e ?f ?a ?kw) ?k ?s] =>
    destruct (wb_lookup _ Hwb a kw) as (h & p & Hlook);
    rewrite (bind_foreign e f a kw _ k s Hlook)
  end.
  front. simpl method.
  lazymatch goal with
  | |- context [bind (foreign ?e ?f ?a ?kw) ?k ?s] =>
    destruct (wb_shape _ Hwb a kw) as (h' & p' & Hs);
    rewrite (bind_foreign e f a kw _ k s Hs)
  end.
  front. simpl method.
  lazymatch goal with
  | |- context [bind (foreign ?e ?f ?a ?kw) ?k ?s] =>
    destruct (wb_list _ Hwb a kw) as (d & ds & Hl);
    rewrite (bind_foreign e f a kw _ k s Hl)
  end.
  front. simpl getitem.
  destruct (index_last d ds) as [size Hsize]. rewrite Hsize, bind_lift_ok.
  fwd_param. front.
  lazymatch goal with
  | |- context [bind (truth ext enable) ?k ?s0] =>
    destruct (run_of (truth ext enable) s0 false) as [s1 Hs1];
      [rewrite truth_eval; exact Hfalse |];
    rewrite (bind_run _ k s0 false s1 Hs1)
  end.
  front. reflexivity.
Qed.

Lemma infer_block_never_returns self enc_output input_embed s :
  lists_are_lists ext ->
  returned (outcome (infer_conv_block ext self enc_output input_embed) s)
  = false.
Proof.
  intros Hlist. unfold outcome.
  destruct (infer_conv_block ext self enc_output input_embed s)
    as [[v|e] s'] eqn:H; [exfalso | reflexivity].
  unfold infer_conv_block in H. peel H.
  match goal with
  | Hm : method _ _ "as_list" _ _ _ = _ |- _ =>
    apply method_inv in Hm as (_ & Hm & _); apply Hlist in Hm as (ds & ->)
  end.
  match goal with
  | Hc : call_value _ (VList _) _ _ _ = _ |- _ => discriminate Hc
  end.
Qed.

Lemma first_foreign {A} f a kw (k : value -> M A) s :
  (forall v, emits (fun _ => True) (k v)) ->
  exists tr,
    calls (final (bind (foreign ext f a kw) k) s)
    = (calls s ++ Call f a kw :: tr)%list.
Proof.
  intros Hk. unfold final, bind, foreign.
  destruct (ext f a kw) as [v|e].
  - destruct (Hk v (State (calls s ++ [Call f a kw]) (next_obj s)))
      as (tr & Htr & _).
    exists tr. unfold final in Htr. rewrite Htr. simpl.
    rewrite <- app_assoc. reflexivity.
  - exists []. reflexivity.
Qed.

Lemma infer_block_first_call self enc_output input_embed s :
  match params self !! "embedding_dropout_keep_prob" with
  | Some keep_prob =>
    exists tr,
      emitted (infer_conv_block ext self enc_output input_embed) s
      = Call "tf.contrib.layers.dropout" []
          [ ("inputs", input_embed); ("keep_prob", keep_prob);
            ("is_training", VBool (mode_is self ModeKeys.INFER)) ] :: tr
  | None => emitted (infer_conv_block ext self enc_output input_embed) s = []
  end.
Proof.
  destruct (params self !! "embedding_dropout_keep_prob") as [kp|] eqn:Hkp.
  - unfold emitted, final, infer_conv_block.
    erewrite bind_param by exact Hkp.
    match goal with
    | |- context [bind (foreign ext ?f ?a ?kw) ?k s] =>
      destruct (first_foreign f a kw k s) as (tr & Htr)
    end.
    + intros v. repeat first [emits_step | emits_call | exact I].
    + exists tr. unfold final in Htr. rewrite Htr. apply drop_app_length.
  - apply emitted_eq. unfold final, infer_conv_block, bind, param.
    rewrite Hkp. symmetry. apply app_nil_r.
Qed.


Lemma init_combiner p m vocab keys vals lens fn rev nm s d s' :
  __init__ ext p m vocab keys vals lens fn rev nm s = (Ok d, s') ->
  exists path,
    p !! "position_embeddings.combiner_fn" = Some path
    /\ ext "locate" [path] [] = Ok (_combiner_fn d)
    /\ params d = p /\ mode d = m.
Proof.
  intros H. unfold __init__ in H. peel H.
  repeat match goal with
         | Hf : foreign _ _ _ _ _ = _ |- _ =>
           apply foreign_inv in Hf as (? & ?)
         end.
  apply ret_inv in H as (<- & _).
  destruct (p !! "position_embeddings.combiner_fn") as [path|] eqn:Hp.
  - match goal with
    | Hr : ret _ _ = _ |- _ => apply ret_inv in Hr as (-> & _)
    end.
    eexists. split; [reflexivity |]. split; [eassumption |].
    split; reflexivity.
  - match goal with
    | Hr : raise _ _ = _ |- _ => discriminate Hr
    end.
Qed.

Lemma next_inputs_call_fails self ids s :
  call_next_inputs ext self [] [ ("sample_ids", ids) ] s
  = (Err (TypeError "missing required positional argument"), s).
Proof. reflexivity. Qed.

(** The statements of [step] after the logits stop at the name [config]. *)
Lemma step_beam_search_stops self time_ beam_state logits s :
  step_beam_search ext self time_ beam_state logits s
  = (Err (NameError "config"), s).
Proof. reflexivity. Qed.

(** The last statements of [step] stop at the call of [next_inputs], once
    [predicted_ids] has been read. *)
Lemma step_next_inputs_fails self bs_output beam_state s :
  step_next_inputs ext self bs_output beam_state s
  = match getattr ext bs_output "predicted_ids" s with
    | (Ok ids, s1) =>
      (Err (TypeError "missing required positional argument"), s1)
    | (Err e, s1) => (Err e, s1)
    end.
Proof.
  unfold step_next_inputs. unfold bind at 1.
  destruct (getattr ext bs_output "predicted_ids" s) as [[ids|e] s1];
    reflexivity.
Qed.

Lemma infer_call_stops self a k s :
  returned (outcome (call_conv_decoder_infer ext budget self a k) s) = false.
Proof.
  unfold call_conv_decoder_infer, invoke.
  destruct (bind_args conv_decoder_infer_sig a k) as [vs|e]; [| reflexivity].
  do 6 (destruct vs as [|? vs]; try reflexivity).
Qed.

End Facts.

(** ** The recording framework *)

Lemma symbolic_well_behaved : well_behaved symbolic.
Proof.
  split; unfold comes_back; intros; simpl; repeat eexists.
Qed.

Lemma covers_insert key v p :
  covers_defaults p -> covers_defaults (<[key := v]> p).
Proof.
  intros H k Hk. destruct (decide (key = k)) as [->|Hne].
  - rewrite lookup_insert_eq. eexists. reflexivity.
  - rewrite lookup_insert_ne by exact Hne. apply H, Hk.
Qed.

Lemma covers_default : covers_defaults default_params.
Proof. intros k Hk. exact Hk. Qed.

(** In the recording framework [conv_decoder_train] returns, for labels that
    are a tensor, a located combiner, a boolean flag for the position
    embeddings and an integer number of layers. *)
Lemma train_returns_recording self decoder enc_output head parts
    sequence_length s b n hc pc :
  covers_defaults (params self) ->
  params self !! "position_embeddings.enable" = Some (VBool b) ->
  params self !! "cnn.layers" = Some (VInt n) ->
  _combiner_fn self = VObj hc pc ->
  returned (outcome (conv_decoder_train symbolic self decoder enc_output
                       (VObj head parts) sequence_length) s) = true.
Proof.
  intros Hcov Hen Hlayers Hcomb.
  destruct (covered _ "embedding_dropout_keep_prob" Hcov) as [kp Hkp];
    [eexists; reflexivity |].
  destruct (covered _ "out_dropout_keep_prob" Hcov) as [ko Hko];
    [eexists; reflexivity |].
  destruct (covered _ "nout_embed" Hcov) as [ne Hne]; [eexists; reflexivity |].
  destruct (covered _ "position_embeddings.num_positions" Hcov) as [np Hnp];
    [eexists; reflexivity |].
  destruct (covered _ "cnn.nhids" Hcov) as [nh Hnh]; [eexists; reflexivity |].
  destruct (covered _ "cnn.nhid_default" Hcov) as [nd Hnd];
    [eexists; reflexivity |].
  destruct (covered _ "cnn.kwidths" Hcov) as [kw Hkw]; [eexists; reflexivity |].
  destruct (covered _ "cnn.kwidth_default" Hcov) as [kd Hkd];
    [eexists; reflexivity |].
  unfold outcome, conv_decoder_train, variable_scope. rewrite Hcomb.
  assert (Hlast : forall (x y z : value),
             index_seq [x; y; z] (-1) = Ok z) by reflexivity.
  repeat first
    [ fwd_param
    | fwd_rec
    | rewrite bind_ret
    | rewrite bind_lift_ok
    | rewrite index_first
    | rewrite Hlast
    | progress front
    | progress simpl method
    | progress simpl getitem
    | progress simpl truth
    | progress simpl gt_zero
    | progress simpl call_value
    | match goal with
      | |- context [if ?c then _ else _] => destruct c
      end ];
    reflexivity.
Qed.

(** * The claims *)

(** C1, against the code: [_build] in INFER mode reads
    [params["max_decode_length"]] into [maximum_iterations] and then calls
    [conv_decoder_infer] on the instance with five keyword arguments, none of
    them the value just read (the method has no parameter for it); in every
    other mode it calls [conv_decoder_train] on [labels] and
    [sequence_length]; either way the outputs are those of the method called.
    The class's own [conv_decoder_infer] returns on no call, so in INFER mode
    no outputs are produced: the inference sample ends in [NameError] for
    [create_init_state]. *)
Theorem build_paths ext budget :
  (forall (infer train : bound_method) self enc_output labels sequence_length
          target_embedding start_tokens config s,
     _build_over infer train self enc_output labels sequence_length
       target_embedding start_tokens config s
     = if String.eqb (mode self) ModeKeys.INFER
       then match params self !! "max_decode_length" with
            | Some maximum_iterations =>
              (outputs <- infer []
                 [ ("decoder", self_value);
                   ("enc_output", enc_output);
                   ("target_embedding", target_embedding);
                   ("start_tokens", start_tokens);
                   ("config", config) ] ;;
               ret (outputs, outputs)) s
            | None => (Err (KeyError "max_decode_length"), s)
            end
       else (outputs <- train []
               [ ("decoder", self_value);
                 ("enc_output", enc_output);
                 ("labels", labels);
                 ("sequence_length", sequence_length) ] ;;
             ret (outputs, outputs)) s)
  /\ (forall self,
        _build ext budget self
        = _build_over (call_conv_decoder_infer ext budget self)
            (call_conv_decoder_train ext self) self)
  /\ mem "maximum_iterations" (names_of conv_decoder_infer_sig) = false
  /\ (forall self a k s,
        returned (outcome (call_conv_decoder_infer ext budget self a k) s)
        = false)
  /\ _build symbolic budget infer_decoder (tensor "enc_output") VNone VNone
       (tensor "target_embedding") (tensor "start_tokens") (tensor "config")
       initial
     = (Err (NameError "create_init_state"), initial).
Proof.
  split; [| split; [| split; [| split]]].
  - intros. unfold _build_over, mode_is.
    destruct (String.eqb (mode self) ModeKeys.INFER); [| reflexivity].
    unfold bind at 1, param.
    destruct (params self !! "max_decode_length"); reflexivity.
  - reflexivity.
  - reflexivity.
  - intros. apply infer_call_stops.
  - reflexivity.
Qed.

(** C8: with [default_params] as the parameters, [_build] in INFER mode
    raises [KeyError] for [max_decode_length] and nothing has been called by
    then; in any other mode the run is the same whether or not the key is
    there. *)
Theorem build_default_params ext budget self enc_output labels
    sequence_length target_embedding start_tokens config s :
  let run_with p :=
    _build ext budget (with_params self p) enc_output labels sequence_length
      target_embedding start_tokens config s in
  default_params !! "max_decode_length" = None
  /\ if String.eqb (mode self) ModeKeys.INFER
     then run_with default_params = (Err (KeyError "max_decode_length"), s)
     else forall v,
       run_with (<["max_decode_length" := v]> default_params)
       = run_with default_params.
Proof.
  intros run_with. split; [reflexivity |].
  destruct (String.eqb (mode self) ModeKeys.INFER) eqn:Hm; subst run_with;
    cbv beta.
  - apply build_infer_missing_key; [| reflexivity].
    apply String.eqb_eq. exact Hm.
  - intros v. rewrite !build_eq. simpl. rewrite Hm.
    rewrite train_ignores_max_decode_length. reflexivity.
Qed.

(** C5: the loop header on line 278 is the word [WHILE], which is no keyword,
    followed by a colon, and the header of [create_init_state] on line 227 has
    no colon; the parser rejects both lines, importing the module fails at
    line 227, and so does every method call of a program that has to import
    it, whatever the mode. *)
Theorem module_does_not_load ext budget self meth a k s :
  Source.first_word (Source.text 278) = "WHILE"
  /\ existsb (String.eqb "WHILE") Source.compound_keywords = false
  /\ Source.line_ok (Source.text 278) = false
  /\ Source.has_colon (Source.text 227) = false
  /\ Source.line_ok (Source.text 227) = false
  /\ Source.load = Err (SyntaxError 227)
  /\ run ext budget self meth a k s = (Err (SyntaxError 227), s).
Proof. repeat split; reflexivity. Qed.

(** C7: [conv_decoder_infer] never gets to the beam search: every run stops
    at the first statement with [NameError] for [create_init_state], before
    anything has been called; so does [_build] for the inference sample. *)
Theorem inference_stops_before_beam_search ext budget :
  (forall self decoder enc_output target_embedding start_tokens config s,
     conv_decoder_infer ext budget self decoder enc_output target_embedding
       start_tokens config s
     = (Err (NameError "create_init_state"), s))
  /\ _build ext budget infer_decoder (tensor "enc_output") VNone VNone
       (tensor "target_embedding") (tensor "start_tokens") (tensor "config")
       initial
     = (Err (NameError "create_init_state"), initial).
Proof.
  split.
  - intros. apply conv_decoder_infer_stops.
  - apply build_infer_with_key with (v := VInt 50); reflexivity.
Qed.

(** C10: whenever [_build] returns, the two components of the pair are one
    and the same output object. *)
Theorem build_returns_one_object ext budget self enc_output labels
    sequence_length target_embedding start_tokens config s o1 o2 s' :
  _build ext budget self enc_output labels sequence_length target_embedding
    start_tokens config s = (Ok (o1, o2), s') ->
  o1 = o2.
Proof. apply build_pair. Qed.

Lemma build_returns_one_object_witness :
  exists o1 o2 s',
    _build symbolic 0 train_decoder (tensor "enc_output") (tensor "labels")
      (tensor "sequence_length") VNone VNone VNone initial
    = (Ok (o1, o2), s')
    /\ o1 = o2.
Proof.
  eexists _, _, _. split.
  - vm_compute. reflexivity.
  - eapply (build_returns_one_object symbolic 0 train_decoder
             (tensor "enc_output") (tensor "labels")
             (tensor "sequence_length") VNone VNone VNone initial).
    vm_compute. reflexivity.
Defined.

(** C2: whenever [conv_decoder_train] returns, the logits of the output are
    the time-major transpose of the linear mapping to [vocab_size] units and
    the predicted ids are the [int32] cast of the argmax of those logits over
    the last axis; so two outputs with the same logits have the same
    predicted ids. *)
Theorem train_output_from_logits ext self decoder enc_output labels
    sequence_length s out s' :
  conv_decoder_train ext self decoder enc_output labels sequence_length s
  = (Ok out, s') ->
  output_from_logits ext self out
  /\ forall self2 decoder2 enc_output2 labels2 sequence_length2 s2 out2 s2',
       conv_decoder_train ext self2 decoder2 enc_output2 labels2
         sequence_length2 s2 = (Ok out2, s2') ->
       logits out2 = logits out ->
       predicted_ids out2 = predicted_ids out.
Proof.
  intros H. pose proof (train_output _ _ _ _ _ _ _ _ _ H) as Hout.
  split; [exact Hout |].
  intros self2 decoder2 enc_output2 labels2 sequence_length2 s2 out2 s2' H2 Heq.
  apply train_output in H2.
  destruct Hout as (_ & _ & _ & best & _ & _ & _ & Hbest & Hcast).
  destruct H2 as (_ & _ & _ & best2 & _ & _ & _ & Hbest2 & Hcast2).
  rewrite Heq in Hbest2. congruence.
Qed.

Lemma train_output_from_logits_witness :
  exists out s',
    conv_decoder_train symbolic train_decoder self_value (tensor "enc_output")
      (tensor "labels") (tensor "sequence_length") initial = (Ok out, s')
    /\ output_from_logits symbolic train_decoder out.
Proof.
  eexists _, _. split.
  - vm_compute. reflexivity.
  - eapply (train_output_from_logits symbolic train_decoder self_value
              (tensor "enc_output") (tensor "labels")
              (tensor "sequence_length") initial).
    vm_compute. reflexivity.
Defined.

(** C3, as the code has it: the names [inputs], [enc_output] and [config] are
    bound nowhere.  Given a framework whose calls come back with results of
    the expected kind ([well_behaved]), [infer_conv_block] raises [NameError]
    for [inputs] whenever [params["cnn.layers"]] is greater than 0 and the
    parameters hold the keys read before the convolution stack
    ([block_keys]); [step] raises [NameError] for [enc_output] on every call,
    and its statements after the logits raise [NameError] for [config]
    whenever they are run; [create_init_state] raises the [NameError] of an
    unassigned local for [positions_embed] whenever
    [params["position_embeddings.enable"]] is false; and [infer_conv_block]
    returns a value on no input at all. *)
Theorem unbound_names ext :
  well_behaved ext ->
  (bound_global "inputs" = false /\ bound_global "enc_output" = false
   /\ bound_global "config" = false)
  /\ (forall self enc_output input_embed s layers,
        holds_keys (params self) block_keys = true ->
        params self !! "cnn.layers" = Some layers ->
        eval (gt_zero ext layers) = Ok true ->
        outcome (infer_conv_block ext self enc_output input_embed) s
        = Err (NameError "inputs"))
  /\ (forall self time_ inputs beam_state name s,
        outcome (step ext self time_ inputs beam_state name) s
        = Err (NameError "enc_output"))
  /\ (forall self time_ beam_state logits s,
        outcome (step_beam_search ext self time_ beam_state logits) s
        = Err (NameError "config"))
  /\ (forall self config target_embedding start_tokens s enable,
        params self !! "position_embeddings.enable" = Some enable ->
        eval (truth ext enable) = Ok false ->
        outcome (create_init_state ext self config target_embedding
                   start_tokens) s
        = Err (UnboundLocalError "positions_embed")
        /\ is_NameError (UnboundLocalError "positions_embed") = true)
  /\ (forall self enc_output input_embed s,
        returned (outcome (infer_conv_block ext self enc_output input_embed)
                    s) = false).
Proof.
  intros Hwb. split; [repeat split |]. split; [| split; [| split; [| split]]].
  - intros. eapply infer_block_reads_inputs; eassumption.
  - intros. unfold outcome. rewrite step_stops. reflexivity.
  - intros. unfold outcome. rewrite step_beam_search_stops. reflexivity.
  - intros. split; [| reflexivity].
    eapply init_state_reads_positions_embed; eassumption.
  - intros. apply infer_block_never_returns.
    intros a k v Hv. destruct (wb_list _ Hwb a k) as (d & ds & Hl).
    rewrite Hl in Hv. injection Hv as <-. eexists. reflexivity.
Qed.

Lemma unbound_names_witness :
  outcome (infer_conv_block symbolic infer_decoder (tensor "enc_output")
             (tensor "input_embed")) initial
  = Err (NameError "inputs")
  /\ outcome (step symbolic infer_decoder (VInt 0) (tensor "inputs")
                (tensor "beam_state") VNone) initial
     = Err (NameError "enc_output")
  /\ outcome (step_beam_search symbolic infer_decoder (VInt 0)
                (tensor "beam_state") (tensor "logits")) initial
     = Err (NameError "config")
  /\ outcome (create_init_state symbolic no_positions_decoder
                (tensor "config") (tensor "target_embedding")
                (tensor "start_tokens")) initial
     = Err (UnboundLocalError "positions_embed").
Proof.
  destruct (unbound_names symbolic symbolic_well_behaved)
    as (_ & Hblock & Hstep & Hbeam & Hinit & _).
  split; [| split; [| split]].
  - apply (Hblock infer_decoder _ _ _ (VInt 3)).
    + vm_compute. reflexivity.
    + reflexivity.
    + reflexivity.
  - apply Hstep.
  - apply Hbeam.
  - apply (Hinit no_positions_decoder _ _ _ _ (VBool false)); reflexivity.
Defined.

(** C3, as stated, fails: with [cnn.layers] at 0 the block never reads
    [inputs], and what [infer_conv_block] raises is the [TypeError] of calling
    the list [shape]. *)
Lemma infer_block_without_layers :
  outcome (infer_conv_block symbolic no_layers_decoder (tensor "enc_output")
             (tensor "input_embed")) initial
  = Err (TypeError "object is not callable")
  /\ is_NameError (TypeError "object is not callable") = false.
Proof. split; vm_compute; reflexivity. Qed.

(** C4, as the code has it: [next_inputs] declares the required parameters
    [time], [outputs], [state] and [sample_ids]; the last statements of
    [step] (line 266 on) call it with [sample_ids] alone, so that they end in
    [TypeError] as soon as [bs_output.predicted_ids] has been read, with
    nothing called after that read; [create_init_state] calls the combiner
    with one argument and [conv_decoder_train] calls it with two; but every
    call of [step] stops earlier, with [NameError] for [enc_output], before
    anything is called. *)
Theorem mismatched_signatures ext self :
  (Source.declared 244 = declares next_inputs_sig
   /\ required (Source.declared 244)
      = ["time"; "outputs"; "state"; "sample_ids"])
  /\ (forall ids s,
        call_next_inputs ext self [] [ ("sample_ids", ids) ] s
        = (Err (TypeError "missing required positional argument"), s))
  /\ (forall bs_output beam_state s,
        step_next_inputs ext self bs_output beam_state s
        = match getattr ext bs_output "predicted_ids" s with
          | (Ok ids, s1) =>
            (Err (TypeError "missing required positional argument"), s1)
          | (Err e, s1) => (Err e, s1)
          end)
  /\ (outcome (step_next_inputs symbolic infer_decoder (tensor "bs_output")
                 (tensor "beam_state")) initial
      = Err (TypeError "missing required positional argument")
      /\ is_TypeError (TypeError "missing required positional argument")
         = true)
  /\ (forall config target_embedding start_tokens s,
        Forall (called_with (_combiner_fn self) 1)
          (emitted (create_init_state ext self config target_embedding
                      start_tokens) s))
  /\ (forall decoder enc_output labels sequence_length s,
        Forall (called_with (_combiner_fn self) 2)
          (emitted (conv_decoder_train ext self decoder enc_output labels
                      sequence_length) s))
  /\ (count_calls "__call__" 2
        (emitted (create_init_state symbolic train_decoder (tensor "config")
                    (tensor "target_embedding") (tensor "start_tokens"))
           initial) = 1%nat
      /\ count_calls "__call__" 3
           (emitted (conv_decoder_train symbolic train_decoder self_value
                       (tensor "enc_output") (tensor "labels")
                       (tensor "sequence_length")) initial) = 1%nat)
  /\ (forall time_ inputs beam_state name s,
        step ext self time_ inputs beam_state name s
        = (Err (NameError "enc_output"), s)).
Proof.
  split; [split; reflexivity |].
  split; [intros; apply next_inputs_call_fails |].
  split; [intros; apply step_next_inputs_fails |].
  split; [split; reflexivity |].
  split; [intros; apply emits_emitted, init_state_combiner_arity |].
  split; [intros; apply emits_emitted, train_combiner_arity |].
  split; [split; vm_compute; reflexivity |].
  intros. apply step_stops.
Qed.

(** C4, as stated, fails: what a call of [step] raises is a [NameError], not
    a [TypeError]. *)
Lemma step_raises_name_error :
  outcome (step symbolic infer_decoder (VInt 0) (tensor "inputs")
             (tensor "beam_state") VNone) initial
  = Err (NameError "enc_output")
  /\ is_TypeError (NameError "enc_output") = false.
Proof. split; reflexivity. Qed.

(** C6: whenever [conv_decoder_train] returns, it has first combined the
    labels with a position embedding when [position_embeddings.enable] is
    true, and left them alone when it is false, before the dropout on the
    embeddings and the layers after it (see [embeds_positions]); the
    combiner is what [__init__] located under
    [params["position_embeddings.combiner_fn"]], [tensorflow.add] by
    default. *)
Theorem train_position_embedding ext self decoder enc_output labels
    sequence_length s out s' :
  conv_decoder_train ext self decoder enc_output labels sequence_length s
  = (Ok out, s') ->
  embeds_positions ext self labels sequence_length
    (emitted (conv_decoder_train ext self decoder enc_output labels
                sequence_length) s)
  /\ default_params !! "position_embeddings.combiner_fn"
     = Some (VStr "tensorflow.add")
  /\ forall p m vocab keys vals lens fn rev nm s0 d s1,
       __init__ ext p m vocab keys vals lens fn rev nm s0 = (Ok d, s1) ->
       exists path,
         p !! "position_embeddings.combiner_fn" = Some path
         /\ ext "locate" [path] [] = Ok (_combiner_fn d)
         /\ params d = p /\ mode d = m.
Proof.
  intros H. split; [eapply train_embedding; exact H |].
  split; [reflexivity |].
  intros. eapply init_combiner. eassumption.
Qed.

Lemma train_position_embedding_witness :
  exists out s',
    conv_decoder_train symbolic train_decoder self_value (tensor "enc_output")
      (tensor "labels") (tensor "sequence_length") initial = (Ok out, s')
    /\ embeds_positions symbolic train_decoder (tensor "labels")
         (tensor "sequence_length")
         (emitted (conv_decoder_train symbolic train_decoder self_value
                     (tensor "enc_output") (tensor "labels")
                     (tensor "sequence_length")) initial).
Proof.
  eexists _, _. split.
  - vm_compute. reflexivity.
  - eapply (train_position_embedding symbolic train_decoder self_value
              (tensor "enc_output") (tensor "labels")
              (tensor "sequence_length") initial).
    vm_compute. reflexivity.
Defined.

(** C9, as the code has it: every dropout call of [conv_decoder_train] has
    [is_training] true exactly when the mode is TRAIN, every dropout call of
    [infer_conv_block] has it true exactly when the mode is INFER, and the
    first thing [infer_conv_block] does, once it has its keep probability, is
    to ask for that dropout on its input; the training sample makes two
    dropout calls. *)
Theorem dropout_flags ext self :
  (forall decoder enc_output labels sequence_length s,
     Forall (dropout_flag (String.eqb (mode self) ModeKeys.TRAIN))
       (emitted (conv_decoder_train ext self decoder enc_output labels
                   sequence_length) s))
  /\ (forall enc_output input_embed s,
        Forall (dropout_flag (String.eqb (mode self) ModeKeys.INFER))
          (emitted (infer_conv_block ext self enc_output input_embed) s))
  /\ (forall enc_output input_embed s,
        match params self !! "embedding_dropout_keep_prob" with
        | Some keep_prob =>
          exists tr,
            emitted (infer_conv_block ext self enc_output input_embed) s
            = Call "tf.contrib.layers.dropout" []
                [ ("inputs", input_embed); ("keep_prob", keep_prob);
                  ("is_training",
                   VBool (String.eqb (mode self) ModeKeys.INFER)) ] :: tr
        | None =>
          emitted (infer_conv_block ext self enc_output input_embed) s = []
        end)
  /\ count_calls "tf.contrib.layers.dropout" 0
       (emitted (conv_decoder_train symbolic train_decoder self_value
                   (tensor "enc_output") (tensor "labels")
                   (tensor "sequence_length")) initial) = 2%nat.
Proof.
  split; [intros; apply emits_emitted, train_dropout_flags |].
  split; [intros; apply emits_emitted, infer_block_dropout_flags |].
  split; [intros; apply infer_block_first_call |].
  vm_compute. reflexivity.
Qed.

(** C9, as stated, fails: two inference runs on the same input never differ
    in what comes out, whatever the framework does in either; both end in the
    same exception. *)
Lemma inference_runs_agree :
  ~ exists ext1 ext2 budget self enc_output labels sequence_length
      target_embedding start_tokens config s1 s2,
      mode self = ModeKeys.INFER
      /\ outcome (_build ext1 budget self enc_output labels sequence_length
                    target_embedding start_tokens config) s1
         <> outcome (_build ext2 budget self enc_output labels sequence_length
                       target_embedding start_tokens config) s2.
Proof.
  intros (ext1 & ext2 & budget & self & enc_output & labels & sequence_length
          & target_embedding & start_tokens & config & s1 & s2 & Hm & Hne).
  apply Hne. unfold outcome.
  destruct (params self !! "max_decode_length") as [v|] eqn:Hk.
  - rewrite !(build_infer_with_key _ _ _ _ _ _ _ _ _ _ v Hm Hk). reflexivity.
  - rewrite !(build_infer_missing_key _ _ _ _ _ _ _ _ _ _ Hm Hk). reflexivity.
Qed.

(** * Further properties of the methods *)

Lemma emits_bind_raise {A B} P e (k : A -> M B) : emits P (bind (raise e) k).
Proof.
  intros s. exists []. split; [symmetry; apply app_nil_r | constructor].
Qed.

Lemma emits_bind_ret {A B} P (a : A) (k : A -> M B) :
  emits P (k a) -> emits P (bind (ret a) k).
Proof. intros H. exact H. Qed.

Lemma not_mem k l : mem k l = false -> forall x, In x l -> x <> k.
Proof.
  unfold mem. intros H x Hx ->.
  assert (Ht : existsb (String.eqb k) l = true).
  { apply existsb_exists. exists k. split; [exact Hx | apply String.eqb_refl]. }
  congruence.
Qed.

Lemma mem_In k l : mem k l = true -> In k l.
Proof.
  unfold mem. intros H. apply existsb_exists in H as (x & Hx & Heq).
  apply String.eqb_eq in Heq. subst. exact Hx.
Qed.

Lemma param_frame self p k v key :
  key <> k ->
  param (with_params self (<[k := v]> p)) key = param (with_params self p) key.
Proof.
  intros Hne. unfold param. simpl.
  rewrite lookup_insert_ne by congruence. reflexivity.
Qed.

Lemma param_known self key v :
  params self !! key = Some v -> param self key = ret v.
Proof. intros H. unfold param. rewrite H. reflexivity. Qed.

Lemma add_eval ext a b s : outcome (add ext a b) s = eval (add ext a b).
Proof.
  unfold eval, outcome, add.
  repeat match goal with
         | |- context [match ?x with _ => _ end] => destruct x
         end; reflexivity.
Qed.

Lemma bind_params_error ps a k e :
  bind_params ps a k = Err e -> is_TypeError e = true.
Proof.
  revert a. induction ps as [|[p dflt] ps IH]; intros a H; simpl in H.
  - destruct a; [discriminate H | injection H as <-; reflexivity].
  - destruct a as [|v a'].
    + destruct (kw_get k p) as [v|]; [| destruct dflt as [v|]].
      * destruct (bind_params ps [] k) eqn:Hr; [discriminate H |].
        injection H as <-. eapply IH, Hr.
      * destruct (bind_params ps [] k) eqn:Hr; [discriminate H |].
        injection H as <-. eapply IH, Hr.
      * injection H as <-. reflexivity.
    + destruct (mem p (names_of k)).
      * injection H as <-. reflexivity.
      * destruct (bind_params ps a' k) eqn:Hr; [discriminate H |].
        injection H as <-. eapply IH, Hr.
Qed.

Lemma bind_args_error ps a k e :
  bind_args ps a k = Err e -> is_TypeError e = true.
Proof.
  unfold bind_args.
  destruct (forallb _ _); [apply bind_params_error |].
  intros H. injection H as <-. reflexivity.
Qed.

Lemma forget_dead {A} (m : M A) s :
  returned (outcome m s) = false -> returned (outcome (forget m) s) = false.
Proof.
  unfold outcome, forget, bind. destruct (m s) as [[a|e] s1]; simpl; auto.
Qed.

Lemma invoke_dead {A} ps (body : list value -> M A) a k s :
  (forall vs, returned (outcome (body vs) s) = false) ->
  returned (outcome (invoke ps body a k) s) = false.
Proof.
  intros H. unfold invoke. destruct (bind_args ps a k); [apply H | reflexivity].
Qed.

Lemma recording_lists : lists_are_lists symbolic.
Proof.
  intros a k v H. simpl in H. injection H as <-. eexists. reflexivity.
Qed.

Lemma compute_output_stops ext self cell_output s :
  returned (outcome (compute_output ext self cell_output) s) = false.
Proof.
  unfold outcome.
  destruct (compute_output ext self cell_output s) as [[v|e] s'] eqn:H;
    [exfalso | reflexivity].
  unfold compute_output in H. peel H.
  match goal with
  | p : (value * value)%type |- _ => destruct p
  end.
  peel H.
  match goal with
  | Hc : self_attr _ "cell" _ = _ |- _ => discriminate Hc
  end.
Qed.

Lemma next_inputs_stops ext self a k s :
  exists e,
    call_next_inputs ext self a k s = (Err e, s)
    /\ (is_TypeError e = true \/ e = AttributeError "_end_token").
Proof.
  unfold call_next_inputs, invoke.
  destruct (bind_args next_inputs_sig a k) as [vs|e] eqn:Hb.
  - destruct vs as [|v1 [|v2 [|v3 [|v4 [|v5 [|v6 vs]]]]]];
      eexists; (split; [reflexivity |]); auto.
  - exists e. split; [reflexivity |].
    left. eapply bind_args_error, Hb.
Qed.

(** X1: [compute_output] returns on no input: it reads [self.cell], an
    attribute that nothing assigns, and so never gets to either of its two
    [fully_connected] layers. *)
Theorem compute_output_never_returns ext self cell_output s :
  returned (outcome (compute_output ext self cell_output) s) = false
  /\ Forall (fn_not_in ["tf.contrib.layers.fully_connected"])
       (emitted (compute_output ext self cell_output) s).
Proof.
  split; [apply compute_output_stops |].
  apply emits_emitted. unfold compute_output.
  apply emits_bind; [emits_quiet |]. intros r.
  apply emits_bind; [emits_quiet |]. intros [att_scores attention_context].
  apply emits_bind; [emits_quiet |]. intros mixed.
  change (self_attr self "cell") with (@raise value (AttributeError "cell")).
  apply emits_bind_raise.
Qed.

(** X2: however [next_inputs] is called, it returns nothing and calls
    nothing: either the arguments do not fit its parameters ([TypeError]) or
    it stops at [self._end_token], an attribute that nothing assigns. *)
Theorem next_inputs_never_returns ext self a k s :
  exists e,
    call_next_inputs ext self a k s = (Err e, s)
    /\ (is_TypeError e = true \/ e = AttributeError "_end_token").
Proof. apply next_inputs_stops. Qed.

(** X3: [conv_decoder_train] depends on the parameters only through the ten
    keys of [train_reads]: setting any other key, such as
    [nhid_dropout_keep_prob], [word_embeddings.size], [init_scale] or
    [position_embeddings.combiner_fn], changes nothing in the run. *)
Theorem train_reads_only ext self p k v decoder enc_output labels
    sequence_length :
  mem k train_reads = false ->
  conv_decoder_train ext (with_params self (<[k := v]> p)) decoder enc_output
    labels sequence_length
  = conv_decoder_train ext (with_params self p) decoder enc_output labels
      sequence_length.
Proof.
  intros Hk. unfold conv_decoder_train.
  rewrite !(param_frame self p k v)
    by (apply (not_mem _ _ Hk); simpl; tauto).
  reflexivity.
Qed.

Lemma train_reads_only_witness :
  conv_decoder_train symbolic
    (with_params train_decoder
       (<["nhid_dropout_keep_prob" := VFloat 5 (-1)]> default_params))
    self_value (tensor "enc_output") (tensor "labels")
    (tensor "sequence_length")
  = conv_decoder_train symbolic (with_params train_decoder default_params)
      self_value (tensor "enc_output") (tensor "labels")
      (tensor "sequence_length").
Proof.
  apply (train_reads_only symbolic train_decoder default_params
           "nhid_dropout_keep_prob" (VFloat 5 (-1))).
  reflexivity.
Defined.

(** X4: [infer_conv_block] depends on the parameters only through the eight
    keys of [infer_reads]; the two keys of the position embeddings are not
    among them. *)
Theorem infer_block_reads_only ext self p k v enc_output input_embed :
  mem k infer_reads = false ->
  infer_conv_block ext (with_params self (<[k := v]> p)) enc_output
    input_embed
  = infer_conv_block ext (with_params self p) enc_output input_embed.
Proof.
  intros Hk. unfold infer_conv_block.
  rewrite !(param_frame self p k v)
    by (apply (not_mem _ _ Hk); simpl; tauto).
  reflexivity.
Qed.

Lemma infer_block_reads_only_witness :
  infer_conv_block symbolic
    (with_params infer_decoder
       (<["position_embeddings.enable" := VBool false]> default_params))
    (tensor "enc_output") (tensor "input_embed")
  = infer_conv_block symbolic (with_params infer_decoder default_params)
      (tensor "enc_output") (tensor "input_embed").
Proof.
  apply (infer_block_reads_only symbolic infer_decoder default_params
           "position_embeddings.enable" (VBool false)).
  reflexivity.
Defined.

(** X5: [create_init_state] depends on the parameters only through
    [position_embeddings.enable] and [position_embeddings.num_positions]. *)
Theorem init_state_reads_only ext self p k v config target_embedding
    start_tokens :
  mem k init_state_reads = false ->
  create_init_state ext (with_params self (<[k := v]> p)) config
    target_embedding start_tokens
  = create_init_state ext (with_params self p) config target_embedding
      start_tokens.
Proof.
  intros Hk. unfold create_init_state.
  rewrite !(param_frame self p k v)
    by (apply (not_mem _ _ Hk); simpl; tauto).
  reflexivity.
Qed.

Lemma init_state_reads_only_witness :
  create_init_state symbolic
    (with_params infer_decoder (<["cnn.layers" := VInt 7]> default_params))
    (tensor "config") (tensor "target_embedding") (tensor "start_tokens")
  = create_init_state symbolic (with_params infer_decoder default_params)
      (tensor "config") (tensor "target_embedding") (tensor "start_tokens").
Proof.
  apply (init_state_reads_only symbolic infer_decoder default_params
           "cnn.layers" (VInt 7)).
  reflexivity.
Defined.

(** X6: [conv_decoder_train] returns only when the labels are an object of
    the framework and the parameters hold the five keys it reads on every
    path; a missing one ends the run in an exception. *)
Theorem train_required_params ext self decoder enc_output labels
    sequence_length s out s' :
  conv_decoder_train ext self decoder enc_output labels sequence_length s
  = (Ok out, s') ->
  Forall (fun key => is_Some (params self !! key))
    [ "position_embeddings.enable"; "embedding_dropout_keep_prob";
      "cnn.layers"; "nout_embed"; "out_dropout_keep_prob" ]
  /\ exists head parts, labels = VObj head parts.
Proof.
  intros H. unfold conv_decoder_train in H. peel H.
  repeat match goal with
         | Hs : variable_scope _ _ _ _ = _ |- _ =>
           unfold variable_scope in Hs; peel Hs
         end.
  repeat match goal with
         | Hp : param _ _ _ = _ |- _ => apply param_inv in Hp as (? & ?)
         end.
  split.
  - repeat (constructor; [eexists; eassumption |]). constructor.
  - match goal with
    | Hm : method _ labels _ _ _ _ = _ |- _ =>
      apply method_inv in Hm as (Hobj & _); exact Hobj
    end.
Qed.

Lemma train_required_params_witness :
  Forall (fun key => is_Some (params train_decoder !! key))
    [ "position_embeddings.enable"; "embedding_dropout_keep_prob";
      "cnn.layers"; "nout_embed"; "out_dropout_keep_prob" ]
  /\ exists head parts, tensor "labels" = VObj head parts.
Proof.
  eapply (train_required_params symbolic train_decoder self_value
            (tensor "enc_output") (tensor "labels")
            (tensor "sequence_length") initial).
  vm_compute. reflexivity.
Defined.

(** X7: with [cnn.layers] at zero or below, [conv_decoder_train] looks at
    neither the encoder output nor the [decoder] argument, and calls neither
    [parse_list_or_default] nor the convolution stack. *)
Theorem train_without_layers ext self d1 d2 e1 e2 labels sequence_length s n :
  params self !! "cnn.layers" = Some (VInt n) ->
  n <= 0 ->
  conv_decoder_train ext self d1 e1 labels sequence_length s
  = conv_decoder_train ext self d2 e2 labels sequence_length s
  /\ Forall (fn_not_in [ "ConvEncoderUtils.parse_list_or_default";
                         "ConvEncoderUtils.conv_decoder_stack" ])
       (emitted (conv_decoder_train ext self d1 e1 labels sequence_length) s).
Proof.
  intros Hl Hn.
  assert (Hlt : (0 <? n) = false) by (apply Z.ltb_ge; exact Hn).
  split.
  - unfold conv_decoder_train, variable_scope.
    rewrite !(param_known _ _ _ Hl).
    cbv beta iota delta [bind ret gt_zero]. rewrite Hlt. reflexivity.
  - apply emits_emitted. unfold conv_decoder_train, variable_scope.
    rewrite !(param_known _ _ _ Hl).
    repeat first
      [ match goal with
        | |- emits _ (bind (ret _) _) => apply emits_bind_ret
        end
      | progress simpl gt_zero
      | rewrite Hlt
      | emits_step | emits_call | not_in ].
Qed.

Lemma train_without_layers_witness :
  conv_decoder_train symbolic no_layers_decoder self_value
    (tensor "enc_output") (tensor "labels") (tensor "sequence_length") initial
  = conv_decoder_train symbolic no_layers_decoder VNone (tensor "other")
      (tensor "labels") (tensor "sequence_length") initial.
Proof.
  apply (train_without_layers symbolic no_layers_decoder self_value VNone
           (tensor "enc_output") (tensor "other") (tensor "labels")
           (tensor "sequence_length") initial 0).
  - reflexivity.
  - lia.
Defined.

(** X8: with a positive [cnn.layers], a returning run of
    [conv_decoder_train] has fed the convolution stack the dropped-out
    embeddings twice, once as they are and once through the linear mapping to
    the first hidden size, together with the encoder output, the two parsed
    lists, the literal keep probabilities 0.8 and 0.8 and the mode; the
    stack's result goes on to the linear mapping of the softmax scope. *)
Theorem train_stack_wiring ext self decoder enc_output labels sequence_length
    s out s' n :
  conv_decoder_train ext self decoder enc_output labels sequence_length s
  = (Ok out, s') ->
  params self !! "cnn.layers" = Some (VInt n) ->
  0 < n ->
  exists embedded keep_prob inputs nhids nhid_default kwidths kwidth_default
         nhids_list kwidths_list nhid0 mapped stacked nout_embed,
    params self !! "embedding_dropout_keep_prob" = Some keep_prob
    /\ ext "tf.contrib.layers.dropout" []
         [ ("inputs", embedded); ("keep_prob", keep_prob);
           ("is_training", VBool (mode_is self ModeKeys.TRAIN)) ] = Ok inputs
    /\ params self !! "cnn.nhids" = Some nhids
    /\ params self !! "cnn.nhid_default" = Some nhid_default
    /\ ext "ConvEncoderUtils.parse_list_or_default"
         [nhids; VInt n; nhid_default] [] = Ok nhids_list
    /\ params self !! "cnn.kwidths" = Some kwidths
    /\ params self !! "cnn.kwidth_default" = Some kwidth_default
    /\ ext "ConvEncoderUtils.parse_list_or_default"
         [kwidths; VInt n; kwidth_default] [] = Ok kwidths_list
    /\ eval (getitem ext nhids_list (VInt 0)) = Ok nhid0
    /\ ext "ConvEncoderUtils.linear_mapping" [inputs; nhid0]
         [ ("dropout", keep_prob);
           ("var_scope_name", VStr "linear_mapping_before_cnn") ] = Ok mapped
    /\ ext "ConvEncoderUtils.conv_decoder_stack"
         [ inputs; enc_output; mapped; nhids_list; kwidths_list;
           VDict [("src", VFloat 8 (-1)); ("hid", VFloat 8 (-1))] ]
         [ ("mode", VStr (mode self)) ] = Ok stacked
    /\ params self !! "nout_embed" = Some nout_embed
    /\ exists after,
         ext "ConvEncoderUtils.linear_mapping" [stacked; nout_embed]
           [ ("var_scope_name", VStr "linear_mapping_after_cnn") ] = Ok after.
Proof.
  intros H Hl Hn. unfold conv_decoder_train in H. peel H.
  repeat match goal with
         | Hs : variable_scope _ _ _ _ = _ |- _ =>
           unfold variable_scope in Hs; peel Hs
         end.
  repeat match goal with
         | Hp : param _ _ _ = _ |- _ => apply param_inv in Hp as (? & ?)
         end.
  match goal with
  | Hk : params self !! "cnn.layers" = Some ?v |- _ =>
    rewrite Hl in Hk; injection Hk as <-
  end.
  match goal with
  | Hg : gt_zero _ (VInt n) _ = _ |- _ =>
    simpl in Hg; apply ret_inv in Hg as (<- & <-)
  end.
  replace (0 <? n) with true in * by (symmetry; apply Z.ltb_lt; exact Hn).
  match goal with
  | Hb : bind _ _ _ = (Ok _, _) |- _ => peel Hb
  end.
  repeat match goal with
         | Hp : param _ _ _ = _ |- _ => apply param_inv in Hp as (? & ?)
         | Hf : foreign _ _ _ _ _ = _ |- _ =>
           apply foreign_inv in Hf as (? & ?)
         | Hg : getitem _ ?d ?i ?st = (Ok ?v, _) |- _ =>
           assert (eval (getitem ext d i) = Ok v)
             by (rewrite <- (getitem_eval ext _ _ st); unfold outcome;
                 rewrite Hg; reflexivity);
           clear Hg
         end.
  repeat match goal with
         | H1 : params self !! ?k = Some ?a,
           H2 : params self !! ?k = Some ?b |- _ =>
           rewrite H1 in H2; injection H2 as <-
         end.
  do 13 eexists.
  repeat (split; [eassumption |]). eexists. eassumption.
Qed.

Lemma train_stack_wiring_witness :
  exists inputs mapped lists widths stacked,
    symbolic "ConvEncoderUtils.conv_decoder_stack"
      [ inputs; tensor "enc_output"; mapped; lists; widths;
        VDict [("src", VFloat 8 (-1)); ("hid", VFloat 8 (-1))] ]
      [ ("mode", VStr (mode train_decoder)) ] = Ok stacked.
Proof.
  assert (Hrun : exists out s',
             conv_decoder_train symbolic train_decoder self_value
               (tensor "enc_output") (tensor "labels")
               (tensor "sequence_length") initial = (Ok out, s'))
    by (eexists _, _; vm_compute; reflexivity).
  destruct Hrun as (out & s' & Hrun).
  destruct (train_stack_wiring symbolic train_decoder self_value
              (tensor "enc_output") (tensor "labels")
              (tensor "sequence_length") initial out s' 3 Hrun)
    as (_ & _ & inputs & _ & _ & _ & _ & lists & widths & _ & mapped
        & stacked & _ & _ & _ & _ & _ & _ & _ & _ & _ & _ & _ & Hstack & _).
  - reflexivity.
  - lia.
  - exists inputs, mapped, lists, widths, stacked. exact Hstack.
Defined.

(** X9: [infer_conv_block] makes no use of the encoder output and never
    calls the convolution stack: the call sits behind the read of the unbound
    name [inputs]. *)
Theorem infer_block_skips_the_stack ext self e1 e2 input_embed s :
  infer_conv_block ext self e1 input_embed s
  = infer_conv_block ext self e2 input_embed s
  /\ Forall (fn_not_in ["ConvEncoderUtils.conv_decoder_stack"])
       (emitted (infer_conv_block ext self e1 input_embed) s).
Proof.
  split; [reflexivity |].
  apply emits_emitted. unfold infer_conv_block.
  change (read_global "inputs") with (@raise value (NameError "inputs")).
  repeat first
    [ match goal with
      | |- emits _ (bind (raise _) _) => apply emits_bind_raise
      end
    | emits_step | emits_call | not_in ].
Qed.

(** X10: [create_init_state] returns only with the position embeddings
    enabled, and what it returns is the beam state of
    [create_initial_beam_state(config)] and the combiner applied to one
    argument, the sum of the embedded start tokens and the first row of the
    position encoding table; the tiled batch of that row is not part of it. *)
Theorem init_state_result ext self config target_embedding start_tokens s
    input_embed beam_state s' :
  create_init_state ext self config target_embedding start_tokens s
  = (Ok (input_embed, beam_state), s') ->
  exists enable start_embedded shape dims embed_size num_positions table
         positions_embed start_pos_embed total,
    params self !! "position_embeddings.enable" = Some enable
    /\ eval (truth ext enable) = Ok true
    /\ ext "beam_search.create_initial_beam_state" [config] [] = Ok beam_state
    /\ ext "tf.nn.embedding_lookup" [target_embedding; start_tokens] []
       = Ok start_embedded
    /\ ext ".get_shape" [start_embedded] [] = Ok shape
    /\ ext ".as_list" [shape] [] = Ok dims
    /\ eval (getitem ext dims (VInt (-1))) = Ok embed_size
    /\ params self !! "position_embeddings.num_positions" = Some num_positions
    /\ ext "position_encoding" [num_positions; embed_size] [] = Ok table
    /\ ext "tf.constant" [table] [ ("name", VStr "position_encoding") ]
       = Ok positions_embed
    /\ eval (getitem ext positions_embed
               (VTuple [VSlice (VInt 0) (VInt 1); VSlice VNone VNone]))
       = Ok start_pos_embed
    /\ eval (add ext start_embedded start_pos_embed) = Ok total
    /\ ext "__call__" [_combiner_fn self; total] [] = Ok input_embed.
Proof.
  intros H. unfold create_init_state in H.
  do 7 (apply bind_ok_inv in H as (? & ? & ? & H)).
  match goal with
  | Ht : truth _ ?e ?st = (Ok ?b, _) |- _ =>
    assert (Hen : eval (truth ext e) = Ok b)
      by (rewrite <- (truth_eval ext _ st); unfold outcome; rewrite Ht;
          reflexivity);
    clear Ht; destruct b
  end.
  - peel H.
    repeat match goal with
           | Hb : bind _ _ _ = (Ok _, _) |- _ => peel Hb
           | Hm : method _ _ _ _ _ _ = _ |- _ =>
             apply method_inv in Hm as (_ & ? & ?)
           | Hp : param _ _ _ = _ |- _ => apply param_inv in Hp as (? & ?)
           | Hf : foreign _ _ _ _ _ = _ |- _ =>
             apply foreign_inv in Hf as (? & ?)
           | Hc : call_value _ _ _ _ _ = _ |- _ =>
             apply call_value_inv in Hc as (? & ?)
           | Hr : ret _ _ = _ |- _ => apply ret_inv in Hr as (? & ?); subst
           | Hl : read_local _ (Some _) _ = _ |- _ =>
             apply ret_inv in Hl as (? & ?); subst
           | Hg : getitem _ ?d ?i ?st = (Ok ?v, _) |- _ =>
             assert (eval (getitem ext d i) = Ok v)
               by (rewrite <- (getitem_eval ext _ _ st); unfold outcome;
                   rewrite Hg; reflexivity);
             clear Hg
           | Ha : add _ ?a ?b ?st = (Ok ?v, _) |- _ =>
             assert (eval (add ext a b) = Ok v)
               by (rewrite <- (add_eval ext _ _ st); unfold outcome;
                   rewrite Ha; reflexivity);
             clear Ha
           | Heq : (_, _) = (_, _) |- _ => injection Heq as ? ?
           | Heq : Some _ = _ |- _ => subst
           end.
    subst. do 10 eexists. repeat (split; [eassumption |]). eassumption.
  - peel H.
    match goal with
    | Hr : ret None _ = _ |- _ => apply ret_inv in Hr as (<- & _)
    end.
    match goal with
    | Hl : read_local _ None _ = _ |- _ => discriminate Hl
    end.
Qed.

Lemma init_state_result_witness :
  exists input_embed total,
    symbolic "__call__" [_combiner_fn infer_decoder; total] []
    = Ok input_embed.
Proof.
  assert (Hrun : exists input_embed beam_state s',
             create_init_state symbolic infer_decoder (tensor "config")
               (tensor "target_embedding") (tensor "start_tokens") initial
             = (Ok (input_embed, beam_state), s'))
    by (eexists _, _, _; vm_compute; reflexivity).
  destruct Hrun as (input_embed & beam_state & s' & Hrun).
  destruct (init_state_result symbolic infer_decoder (tensor "config")
              (tensor "target_embedding") (tensor "start_tokens") initial
              input_embed beam_state s' Hrun)
    as (_ & _ & _ & _ & _ & _ & _ & _ & _ & total & _ & _ & _ & _ & _ & _
        & _ & _ & _ & _ & _ & _ & Hcall).
  exists input_embed, total. exact Hcall.
Defined.

(** X11: in INFER mode [_build] returns nothing and calls nothing, whatever
    its parameters and arguments: it stops at the missing key
    [max_decode_length] or, with the key there, at the unbound name
    [create_init_state]. *)
Theorem build_inference_never_returns ext budget self enc_output labels
    sequence_length target_embedding start_tokens config s :
  mode self = ModeKeys.INFER ->
  exists e,
    _build ext budget self enc_output labels sequence_length target_embedding
      start_tokens config s = (Err e, s)
    /\ (e = KeyError "max_decode_length" \/ e = NameError "create_init_state").
Proof.
  intros Hm. destruct (params self !! "max_decode_length") as [v|] eqn:Hk.
  - eexists. split; [eapply build_infer_with_key; eassumption | auto].
  - eexists. split; [eapply build_infer_missing_key; eassumption | auto].
Qed.

Lemma build_inference_never_returns_witness :
  exists e,
    _build symbolic 5 infer_decoder (tensor "enc_output") VNone VNone
      (tensor "target_embedding") (tensor "start_tokens") (tensor "config")
      initial = (Err e, initial)
    /\ (e = KeyError "max_decode_length" \/ e = NameError "create_init_state").
Proof.
  apply (build_inference_never_returns symbolic 5 infer_decoder).
  reflexivity.
Defined.

(** X12: [_build] called with the encoder output alone, every other argument
    at its default [None], returns in no mode and calls nothing: outside
    INFER mode it stops at [labels.get_shape] on [None]. *)
Theorem build_needs_labels ext budget self enc_output s :
  call__build ext budget self [enc_output] [] s
  = (Err (if String.eqb (mode self) ModeKeys.INFER
          then match params self !! "max_decode_length" with
               | Some _ => NameError "create_init_state"
               | None => KeyError "max_decode_length"
               end
          else AttributeError "get_shape"), s).
Proof.
  change (call__build ext budget self [enc_output] [] s)
    with (_build ext budget self enc_output VNone VNone VNone VNone VNone s).
  destruct (String.eqb (mode self) ModeKeys.INFER) eqn:Hm.
  - apply String.eqb_eq in Hm.
    destruct (params self !! "max_decode_length") as [v|] eqn:Hk.
    + eapply build_infer_with_key; eassumption.
    + eapply build_infer_missing_key; eassumption.
  - rewrite build_eq, Hm. reflexivity.
Qed.

(** X13: when [__init__] returns, the parameters hold the key
    [position_embeddings.combiner_fn], the instance has the arguments as its
    attributes and what [locate] found under that key as its combiner, and
    exactly three calls were made: the two base-class constructors, then
    [locate]. *)
Theorem init_result ext p m vocab keys vals lens fn rev nm s d s' :
  __init__ ext p m vocab keys vals lens fn rev nm s = (Ok d, s') ->
  exists path combiner,
    p !! "position_embeddings.combiner_fn" = Some path
    /\ ext "locate" [path] [] = Ok combiner
    /\ d = MkDecoder p m nm vocab keys vals lens fn rev combiner
    /\ emitted (__init__ ext p m vocab keys vals lens fn rev nm) s
       = [ Call "GraphModule.__init__" [self_value; VStr nm] [];
           Call "Configurable.__init__"
             [self_value; VDict (map_to_list p); VStr m] [];
           Call "locate" [path] [] ].
Proof.
  intros H. pose proof H as Hrun. unfold __init__ in H. peel H.
  repeat match goal with
         | Hf : foreign _ _ _ _ _ = _ |- _ =>
           apply foreign_inv in Hf as (? & ?)
         end.
  apply ret_inv in H as (<- & <-).
  destruct (p !! "position_embeddings.combiner_fn") as [path|] eqn:Hp.
  - match goal with
    | Hr : ret _ _ = _ |- _ => apply ret_inv in Hr as (-> & ->)
    end.
    subst. do 2 eexists. split; [reflexivity |]. split; [eassumption |].
    split; [reflexivity |].
    apply emitted_eq. unfold final. rewrite Hrun. cbn [snd].
    rewrite !calls_log. repeat rewrite <- app_assoc. reflexivity.
  - match goal with
    | Hr : raise _ _ = _ |- _ => discriminate Hr
    end.
Qed.

Lemma init_result_witness :
  exists path combiner,
    default_params !! "position_embeddings.combiner_fn" = Some path
    /\ symbolic "locate" [path] [] = Ok combiner.
Proof.
  assert (Hrun : exists d s',
             __init__ symbolic default_params ModeKeys.TRAIN (VInt 32000)
               VNone VNone VNone VNone VNone "conv_decoder_fairseq" initial
             = (Ok d, s'))
    by (eexists _, _; vm_compute; reflexivity).
  destruct Hrun as (d & s' & Hrun).
  destruct (init_result symbolic default_params ModeKeys.TRAIN (VInt 32000)
              VNone VNone VNone VNone VNone "conv_decoder_fairseq" initial
              d s' Hrun)
    as (path & combiner & Hp & Hl & _).
  exists path, combiner. split; [exact Hp | exact Hl].
Defined.

(** X14: five of the methods can be brought to a [return] by no call at
    all, given that [as_list] gives lists: [compute_output],
    [infer_conv_block], [next_inputs], [step] and [conv_decoder_infer]. *)
Theorem dead_methods_never_return ext budget self meth a k s :
  lists_are_lists ext ->
  mem meth dead_methods = true ->
  returned (outcome (dispatch ext budget self meth a k) s) = false.
Proof.
  intros Hlist Hm. apply mem_In in Hm. simpl in Hm.
  destruct Hm as [<-|[<-|[<-|[<-|[<-|[]]]]]];
    cbn [dispatch String.eqb Ascii.eqb Bool.eqb]; apply forget_dead.
  - apply invoke_dead. intros vs.
    destruct vs as [|v1 [|v2 vs]]; try reflexivity.
    apply compute_output_stops.
  - apply invoke_dead. intros vs.
    destruct vs as [|v1 [|v2 [|v3 vs]]]; try reflexivity.
    apply infer_block_never_returns, Hlist.
  - unfold outcome.
    destruct (next_inputs_stops ext self a k s) as (e & -> & _). reflexivity.
  - apply invoke_dead. intros vs.
    destruct vs as [|v1 [|v2 [|v3 [|v4 [|v5 vs]]]]]; try reflexivity.
  - apply invoke_dead. intros vs.
    destruct vs as [|v1 [|v2 [|v3 [|v4 [|v5 [|v6 vs]]]]]]; try reflexivity.
Qed.

Lemma dead_methods_never_return_witness :
  returned (outcome (dispatch symbolic 5 infer_decoder "infer_conv_block"
                       [tensor "enc_output"; tensor "input_embed"] [])
              initial) = false.
Proof.
  apply (dead_methods_never_return symbolic 5 infer_decoder
           "infer_conv_block").
  - exact recording_lists.
  - reflexivity.
Defined.

(** X15: [conv_decoder_train], [infer_conv_block] and [create_init_state]
    use four things of the instance, its parameters, mode, vocabulary size
    and combiner; the attention keys, values, lengths and function, the
    reverse-score lengths and the name have no part in them. *)
Theorem methods_use_four_attributes ext self1 self2 :
  params self1 = params self2 ->
  mode self1 = mode self2 ->
  vocab_size self1 = vocab_size self2 ->
  _combiner_fn self1 = _combiner_fn self2 ->
  conv_decoder_train ext self1 = conv_decoder_train ext self2
  /\ infer_conv_block ext self1 = infer_conv_block ext self2
  /\ create_init_state ext self1 = create_init_state ext self2.
Proof.
  destruct self1, self2. simpl. intros -> -> -> ->.
  repeat split; reflexivity.
Qed.

Lemma methods_use_four_attributes_witness :
  conv_decoder_train symbolic train_decoder
  = conv_decoder_train symbolic bare_decoder.
Proof.
  apply (methods_use_four_attributes symbolic train_decoder bare_decoder);
    reflexivity.
Defined.

(** X16: with the position embeddings enabled, [conv_decoder_train] returns
    only if the combiner is a value that can be called, a framework object or
    a lambda; with any other combiner, [None] for one, no run returns. *)
Theorem train_needs_combiner ext self decoder enc_output labels
    sequence_length s out s' enable :
  conv_decoder_train ext self decoder enc_output labels sequence_length s
  = (Ok out, s') ->
  params self !! "position_embeddings.enable" = Some enable ->
  eval (truth ext enable) = Ok true ->
  (exists head parts, _combiner_fn self = VObj head parts)
  \/ (exists source, _combiner_fn self = VLambda source).
Proof.
  intros H Hen Htrue. unfold conv_decoder_train in H.
  do 6 (apply bind_ok_inv in H as (? & ? & ? & H)). clear H.
  match goal with
  | Hp : param _ "position_embeddings.enable" _ = _ |- _ =>
    apply param_inv in Hp as (Hp & ?); rewrite Hen in Hp;
    injection Hp as <-
  end.
  match goal with
  | Ht : truth _ ?e ?st = (Ok ?b, _) |- _ =>
    assert (Hb : Ok b = Ok true)
      by (rewrite <- Htrue, <- (truth_eval ext _ st); unfold outcome;
          rewrite Ht; reflexivity);
    injection Hb as ->; clear Ht
  end.
  match goal with
  | Hb : bind _ _ _ = (Ok _, _) |- _ => peel Hb; rename Hb into Hcall
  end.
  destruct (_combiner_fn self); try discriminate Hcall; eauto.
Qed.

Lemma train_needs_combiner_witness :
  (exists head parts, _combiner_fn train_decoder = VObj head parts)
  \/ (exists source, _combiner_fn train_decoder = VLambda source).
Proof.
  assert (Hrun : exists out s',
             conv_decoder_train symbolic train_decoder self_value
               (tensor "enc_output") (tensor "labels")
               (tensor "sequence_length") initial = (Ok out, s'))
    by (eexists _, _; vm_compute; reflexivity).
  destruct Hrun as (out & s' & Hrun).
  apply (train_needs_combiner symbolic train_decoder self_value
           (tensor "enc_output") (tensor "labels")
           (tensor "sequence_length") initial out s' (VBool true) Hrun);
    reflexivity.
Defined.
